(** * The upload probe of [test_upload_efficiency.py], embedded in Rocq

    The Python script authenticates against a token endpoint, resolves a
    team, opens an import and uploads files as hand-built
    multipart/form-data bodies that carry an MD5 content hash.  This file
    embeds the script function by function: Python [bytes] are lists of
    [Byte.byte], Python [str] are lists of code points, calls that touch the
    network, the clock, the file system or standard output run in a small
    monad that threads a trace of events and propagates exceptions.  *)

From Stdlib Require Import String Ascii.
From Stdlib Require Import List NArith ZArith Lia Bool.
From Stdlib Require Import Strings.Byte Numbers.DecimalString Floats.SpecFloat.
Import ListNotations.

Local Open Scope N_scope.

(** ** Bytes and strings *)

(** Python [bytes]. *)
Definition bytes := list byte.

(** Python [str]: a sequence of code points. *)
Definition pystr := list N.

Definition byte_of_N (n : N) : byte :=
  match Byte.of_N (n mod 256) with
  | Some b => b
  | None => x00
  end.

(** A [bytes] literal, [b"..."], given by its ASCII text. *)
Definition blit (s : string) : bytes := list_byte_of_string s.

(** A [str] literal, ["..."], given by its ASCII text. *)
Definition lit (s : string) : pystr := map Byte.to_N (list_byte_of_string s).

Arguments blit : simpl never.
Arguments lit : simpl never.

Definition CR : byte := x0d.
Definition LF : byte := x0a.
Definition DQ : byte := x22.
Definition CRLF : bytes := [CR; LF].

(** *** [str.encode()]: UTF-8, strict error handler *)

Definition is_surrogate (c : N) : bool := (0xD800 <=? c) && (c <=? 0xDFFF).

(** The continuation byte carrying bits [6k .. 6k+5] of [c]. *)
Definition cont_byte (c : N) (k : N) : byte :=
  byte_of_N (0x80 + N.land (N.shiftr c (6 * k)) 0x3F).

(** One code point; [None] is [UnicodeEncodeError] (a lone surrogate),
    or a number that is no code point at all. *)
Definition encode_cp (c : N) : option bytes :=
  if c <? 0x80 then Some [byte_of_N c]
  else if c <? 0x800 then
    Some [byte_of_N (0xC0 + N.shiftr c 6); cont_byte c 0]
  else if c <? 0x10000 then
    if is_surrogate c then None
    else Some [byte_of_N (0xE0 + N.shiftr c 12); cont_byte c 1; cont_byte c 0]
  else if c <? 0x110000 then
    Some [byte_of_N (0xF0 + N.shiftr c 18); cont_byte c 2; cont_byte c 1;
          cont_byte c 0]
  else None.

Fixpoint encode (s : pystr) : option bytes :=
  match s with
  | [] => Some []
  | c :: s' =>
      match encode_cp c, encode s' with
      | Some b, Some bs => Some (b ++ bs)
      | _, _ => None
      end
  end.

(** *** [str(n)] for an [int] *)

Definition str_of_Z (z : Z) : pystr :=
  lit (NilZero.string_of_int (Z.to_int z)).

(** *** [os.path.basename] (posixpath): everything after the last slash *)

Definition slash : N := 47.

Fixpoint basename (p : pystr) : pystr :=
  match p with
  | [] => []
  | c :: p' =>
      if existsb (N.eqb slash) p' then basename p'
      else if c =? slash then p' else c :: p'
  end.

(** ** [hashlib.md5] (RFC 1321) and [hexdigest] *)

Module MD5.

Definition wrap32 (x : N) : N := x mod 0x100000000.

Definition rotl (x : N) (c : N) : N :=
  wrap32 (N.lor (N.shiftl x c) (N.shiftr x (32 - c))).

Definition not32 (x : N) : N := N.lxor x 0xffffffff.

Definition shifts : list N :=
  [7; 12; 17; 22; 7; 12; 17; 22; 7; 12; 17; 22; 7; 12; 17; 22;
   5; 9; 14; 20; 5; 9; 14; 20; 5; 9; 14; 20; 5; 9; 14; 20;
   4; 11; 16; 23; 4; 11; 16; 23; 4; 11; 16; 23; 4; 11; 16; 23;
   6; 10; 15; 21; 6; 10; 15; 21; 6; 10; 15; 21; 6; 10; 15; 21].

(** [floor (2^32 * abs (sin (i + 1)))] for [i = 0 .. 63]. *)
Definition sines : list N :=
  [0xd76aa478; 0xe8c7b756; 0x242070db; 0xc1bdceee;
   0xf57c0faf; 0x4787c62a; 0xa8304613; 0xfd469501;
   0x698098d8; 0x8b44f7af; 0xffff5bb1; 0x895cd7be;
   0x6b901122; 0xfd987193; 0xa679438e; 0x49b40821;
   0xf61e2562; 0xc040b340; 0x265e5a51; 0xe9b6c7aa;
   0xd62f105d; 0x02441453; 0xd8a1e681; 0xe7d3fbc8;
   0x21e1cde6; 0xc33707d6; 0xf4d50d87; 0x455a14ed;
   0xa9e3e905; 0xfcefa3f8; 0x676f02d9; 0x8d2a4c8a;
   0xfffa3942; 0x8771f681; 0x6d9d6122; 0xfde5380c;
   0xa4beea44; 0x4bdecfa9; 0xf6bb4b60; 0xbebfbc70;
   0x289b7ec6; 0xeaa127fa; 0xd4ef3085; 0x04881d05;
   0xd9d4d039; 0xe6db99e5; 0x1fa27cf8; 0xc4ac5665;
   0xf4292244; 0x432aff97; 0xab9423a7; 0xfc93a039;
   0x655b59c3; 0x8f0ccc92; 0xffeff47d; 0x85845dd1;
   0x6fa87e4f; 0xfe2ce6e0; 0xa3014314; 0x4e0811a1;
   0xf7537e82; 0xbd3af235; 0x2ad7d2bb; 0xeb86d391].

(** Little-endian bytes of a number, [k] of them. *)
Fixpoint le_bytes (k : nat) (x : N) : bytes :=
  match k with
  | O => []
  | S k' => byte_of_N x :: le_bytes k' (N.shiftr x 8)
  end.

Fixpoint le_word (bs : bytes) : N :=
  match bs with
  | [] => 0
  | b :: bs' => Byte.to_N b + 256 * le_word bs'
  end.

(** Cut a block into [k] little-endian 32-bit words. *)
Fixpoint words (k : nat) (bs : bytes) : list N :=
  match k with
  | O => []
  | S k' => le_word (firstn 4 bs) :: words k' (skipn 4 bs)
  end.

(** Message, then 0x80, zeros up to 56 mod 64, the bit length on 64 bits. *)
Definition pad (msg : bytes) : bytes :=
  let len := N.of_nat (length msg) in
  let zeros := N.to_nat ((119 - len mod 64) mod 64) in
  msg ++ [x80] ++ repeat x00 zeros ++ le_bytes 8 ((8 * len) mod 2 ^ 64).

Record regs := Regs { rA : N; rB : N; rC : N; rD : N }.

Definition init : regs :=
  Regs 0x67452301 0xefcdab89 0x98badcfe 0x10325476.

Definition round (m : list N) (r : regs) (i : nat) : regs :=
  let '(Regs a b c d) := r in
  let n := N.of_nat i in
  let '(f, g) :=
    if n <? 16 then (N.lor (N.land b c) (N.land (not32 b) d), n)
    else if n <? 32 then
      (N.lor (N.land d b) (N.land (not32 d) c), (5 * n + 1) mod 16)
    else if n <? 48 then (N.lxor b (N.lxor c d), (3 * n + 5) mod 16)
    else (N.lxor c (N.lor b (not32 d)), (7 * n) mod 16) in
  let f' := wrap32 (f + a + nth i sines 0 + nth (N.to_nat g) m 0) in
  Regs d (wrap32 (b + rotl f' (nth i shifts 0))) b c.

Definition block (r : regs) (chunk : bytes) : regs :=
  let '(Regs a b c d) := fold_left (round (words 16 chunk)) (seq 0 64) r in
  Regs (wrap32 (rA r + a)) (wrap32 (rB r + b))
       (wrap32 (rC r + c)) (wrap32 (rD r + d)).

(** The 64-byte blocks of the padded message, at most [n] of them. *)
Fixpoint blocks (n : nat) (r : regs) (bs : bytes) : regs :=
  match n, bs with
  | O, _ => r
  | _, [] => r
  | S n', _ => blocks n' (block r (firstn 64 bs)) (skipn 64 bs)
  end.

Definition digest (msg : bytes) : bytes :=
  let p := pad msg in
  let r := blocks (length p) init p in
  le_bytes 4 (rA r) ++ le_bytes 4 (rB r) ++ le_bytes 4 (rC r)
    ++ le_bytes 4 (rD r).

End MD5.

(** [hashlib.md5(data).digest()]. *)
Definition md5 (data : bytes) : bytes := MD5.digest data.

Definition hex_digits : pystr := lit "0123456789abcdef".

Definition hex_pair (b : byte) : pystr :=
  let n := Byte.to_N b in
  [nth (N.to_nat (n / 16)) hex_digits 0; nth (N.to_nat (n mod 16)) hex_digits 0].

(** [.hexdigest()]: two lowercase hexadecimal digits per byte. *)
Definition hexdigest (d : bytes) : pystr := flat_map hex_pair d.

(** ** Decoded JSON values and the Python objects the script handles *)

(** What [response.json()] returns: [None], [bool], [int], [float], [str],
    [list] or [dict] (keys are unique, in document order). *)
#[warnings="-register-all"]
Inductive json :=
| JNull
| JBool (b : bool)
| JInt (n : Z)
| JFloat (f : spec_float)
| JStr (s : pystr)
| JArr (l : list json)
| JObj (m : list (pystr * json)).

Fixpoint str_eqb (a b : pystr) : bool :=
  match a, b with
  | [], [] => true
  | x :: a', y :: b' => (x =? y) && str_eqb a' b'
  | _, _ => false
  end.

Fixpoint assoc {A} (k : pystr) (m : list (pystr * A)) : option A :=
  match m with
  | [] => None
  | (k', v) :: m' => if str_eqb k k' then Some v else assoc k m'
  end.

(** Python truthiness, as tested by [if not token]. *)
Definition truthy (v : json) : bool :=
  match v with
  | JNull => false
  | JBool b => b
  | JInt n => negb (n =? 0)%Z
  | JFloat (S754_zero _) => false
  | JFloat _ => true
  | JStr [] => false
  | JStr _ => true
  | JArr [] => false
  | JArr _ => true
  | JObj [] => false
  | JObj _ => true
  end.

(** ** The world the script runs in *)

Inductive exn :=
| UnicodeEncodeError
| ValueError
| OSError
| RequestException
| JSONDecodeError
| AttributeError.

Inductive outcome (A : Type) :=
| Return (a : A)
| Raised (e : exn).
Arguments Return {A} a.
Arguments Raised {A} e.

Inductive method := GET | POST.

(** The [data=] argument of [requests.post]: a [str] or a [bytes]. *)
Inductive payload :=
| DataStr (s : pystr)
| DataBytes (b : bytes).

Record request := Request {
  rq_method : method;
  rq_url : pystr;
  rq_headers : list (pystr * pystr);
  rq_data : option payload
}.

(** A [requests.Response]: [json_body] is [None] when [.json()] raises. *)
Record response := Response {
  status_code : Z;
  text : pystr;
  json_body : option json
}.

Inductive event :=
| Printed (line : pystr)
| Sent (q : request).

Definition trace := list event.

Definition requests_of (t : trace) : list request :=
  flat_map (fun e => match e with Sent q => [q] | Printed _ => [] end) t.

Definition printed_of (t : trace) : list pystr :=
  flat_map (fun e => match e with Printed l => [l] | Sent _ => [] end) t.

Inductive fsnode :=
| FsFile (content : bytes)
| FsDir.

(** Everything outside the script: the server (which answers a request
    knowing the requests it received before, or makes [requests] raise),
    the file system, the clock ([int(time.time())] at a point of the run)
    and the interpreter's [str()] of floats, lists and dicts.  Standard
    output is taken to accept every [str]; paths are POSIX paths and the
    file system encoding is UTF-8 with [surrogateescape], the default
    there. *)
Record world := World {
  w_send : list request -> request -> outcome response;
  w_fs : pystr -> option fsnode;
  w_time : trace -> Z;
  w_repr : json -> pystr
}.

(** ** The monad of the script: reader of the world, trace, exceptions *)

Definition M (A : Type) : Type := world -> trace -> outcome A * trace.

Definition ret {A} (a : A) : M A := fun _ t => (Return a, t).

Definition raise {A} (e : exn) : M A := fun _ t => (Raised e, t).

Definition bind {A B} (c : M A) (k : A -> M B) : M B :=
  fun w t =>
    match c w t with
    | (Return a, t') => k a w t'
    | (Raised e, t') => (Raised e, t')
    end.

Declare Scope py_scope.
Delimit Scope py_scope with py.
Notation "x <- c ;; k" := (bind c (fun x => k))
  (at level 61, c at next level, right associativity) : py_scope.
Notation "c ;; k" := (bind c (fun _ => k))
  (at level 61, right associativity) : py_scope.
Local Open Scope py_scope.

Definition print (line : pystr) : M unit :=
  fun _ t => (Return tt, t ++ [Printed line]).

Definition send (q : request) : M response :=
  fun w t => (w_send w (requests_of t) q, t ++ [Sent q]).

Definition requests_post (url : pystr) (headers : list (pystr * pystr))
    (data : payload) : M response :=
  send (Request POST url headers (Some data)).

Definition requests_get (url : pystr) (headers : list (pystr * pystr))
    : M response :=
  send (Request GET url headers None).

(** [int(time.time())]. *)
Definition time_now : M Z := fun w t => (Return (w_time w t), t).

(** [s.encode()]. *)
Definition str_encode (s : pystr) : M bytes :=
  match encode s with
  | Some b => ret b
  | None => raise UnicodeEncodeError
  end.

(** A path [open] can hand to the operating system.  On POSIX the path is
    encoded with the file system encoding, UTF-8 with the [surrogateescape]
    handler: a lone surrogate passes only when it stands for an undecodable
    byte, U+DC80 to U+DCFF. *)
Definition fs_encodable (path : pystr) : bool :=
  forallb (fun c => (c <? 0x110000)
                    && (negb (is_surrogate c)
                        || ((0xDC80 <=? c) && (c <=? 0xDCFF)))) path.

Definition has_nul (path : pystr) : bool := existsb (N.eqb 0) path.

(** What [open(path, "rb")] raises when it yields no file: the path is
    encoded first ([UnicodeEncodeError]), then checked for an embedded null
    ([ValueError]), and only then does the operating system refuse it
    ([OSError]: missing, a directory, not permitted, too long). *)
Definition open_error (path : pystr) : exn :=
  if negb (fs_encodable path) then UnicodeEncodeError
  else if has_nul path then ValueError
  else OSError.

(** [open(path, "rb").read()].  Only a path that [open] accepts names a
    file of the file system; every other path raises the error above. *)
Definition read_file (path : pystr) : M bytes :=
  fun w t =>
    match w_fs w path with
    | Some (FsFile content) => (Return content, t)
    | _ => (Raised (open_error path), t)
    end.

(** [os.path.exists(path)]. *)
Definition path_exists (path : pystr) : M bool :=
  fun w t =>
    (Return (match w_fs w path with Some _ => true | None => false end), t).

(** [response.json()]. *)
Definition response_json (r : response) : M json :=
  match json_body r with
  | Some j => ret j
  | None => raise JSONDecodeError
  end.

(** [v.get(key, default)]: only a [dict] has the method. *)
Definition dict_get (v : json) (key : pystr) (default : json) : M json :=
  match v with
  | JObj m =>
      ret (match assoc key m with Some x => x | None => default end)
  | _ => raise AttributeError
  end.

(** A value interpolated into an f-string, [f"{v}"]. *)
Definition format_value (w : world) (v : json) : pystr :=
  match v with
  | JNull => lit "None"
  | JBool true => lit "True"
  | JBool false => lit "False"
  | JInt n => str_of_Z n
  | JStr s => s
  | _ => w_repr w v
  end.

Definition fmt (v : json) : M pystr := fun w t => (Return (format_value w v), t).

(** ** The script *)

(** The double quote, inside a [str] literal. *)
Definition dquote : pystr := [34].

Definition CLIENT_ID : pystr := lit "XUDOMtBDQE_ftzZwDKS7PM3naIl6r__Sz69LrhbyBk8".
Definition CLIENT_SECRET : pystr := lit "41pRyqRmWUZhwnWssLvAw67eVA7NVDPQKkzyiSSfwjw".
Definition BASE_URL : pystr := lit "https://sleephq.com".

Definition get_token : M json :=
  let url := BASE_URL ++ lit "/oauth/token" in
  let headers := [(lit "Content-Type", lit "application/x-www-form-urlencoded")] in
  let data := lit "grant_type=password&client_id=" ++ CLIENT_ID
                ++ lit "&client_secret=" ++ CLIENT_SECRET
                ++ lit "&scope=read+write" in
  print (lit "Requesting token with body: " ++ data) ;;
  response <- requests_post url headers (DataStr data) ;;
  if (status_code response =? 200)%Z then
    j <- response_json response ;;
    dict_get j (lit "access_token") JNull
  else
  print (lit "Token attempt 1 failed: " ++ text response) ;;
  let data := lit "grant_type=password&client_id=" ++ CLIENT_ID
                ++ lit "&client_secret=" ++ CLIENT_SECRET
                ++ lit "&scope=api" in
  response <- requests_post url headers (DataStr data) ;;
  if (status_code response =? 200)%Z then
    j <- response_json response ;;
    dict_get j (lit "access_token") JNull
  else
  let data := lit "grant_type=password&client_id=" ++ CLIENT_ID
                ++ lit "&client_secret=" ++ CLIENT_SECRET in
  response <- requests_post url headers (DataStr data) ;;
  if (status_code response =? 200)%Z then
    j <- response_json response ;;
    dict_get j (lit "access_token") JNull
  else
  print (lit "All token attempts failed.") ;;
  ret JNull.

Definition get_team_id (token : json) : M json :=
  let url := BASE_URL ++ lit "/api/v1/me" in
  bearer <- fmt token ;;
  let headers := [(lit "Authorization", lit "Bearer " ++ bearer);
                  (lit "Accept", lit "application/vnd.api+json")] in
  response <- requests_get url headers ;;
  if (status_code response =? 200)%Z then
    j <- response_json response ;;
    d <- dict_get j (lit "data") (JObj []) ;;
    dict_get d (lit "current_team_id") JNull
  else ret JNull.

(** [json.dumps] of the constant payload of [create_import]. *)
Definition import_payload : pystr :=
  lit "{" ++ dquote ++ lit "data" ++ dquote ++ lit ": {"
    ++ dquote ++ lit "type" ++ dquote ++ lit ": "
    ++ dquote ++ lit "imports" ++ dquote ++ lit ", "
    ++ dquote ++ lit "attributes" ++ dquote ++ lit ": {}}}".

Definition create_import (token team_id : json) : M json :=
  team <- fmt team_id ;;
  let url := BASE_URL ++ lit "/api/v1/teams/" ++ team ++ lit "/imports" in
  bearer <- fmt token ;;
  let headers := [(lit "Authorization", lit "Bearer " ++ bearer);
                  (lit "Accept", lit "application/vnd.api+json");
                  (lit "Content-Type", lit "application/vnd.api+json")] in
  print (lit "Creating import for team " ++ team ++ lit "...") ;;
  response <- requests_post url headers (DataStr import_payload) ;;
  if (status_code response =? 201)%Z then
    j <- response_json response ;;
    d <- dict_get j (lit "data") (JObj []) ;;
    dict_get d (lit "id") JNull
  else
    print (lit "Create import error: " ++ str_of_Z (status_code response)
             ++ lit " " ++ text response) ;;
    ret JNull.

(** The literal [b'Content-Disposition: form-data; name="<field>"\r\n\r\n']. *)
Definition disposition (field : string) : bytes :=
  blit "Content-Disposition: form-data; name=" ++ [DQ] ++ blit field ++ [DQ]
    ++ CRLF ++ CRLF.

(** The f-string
    [f'Content-Disposition: form-data; name="<field>"; filename="{file_name}"\r\n']. *)
Definition file_disposition (field : string) (file_name : pystr) : pystr :=
  lit "Content-Disposition: form-data; name=" ++ dquote ++ lit field ++ dquote
    ++ lit "; filename=" ++ dquote ++ file_name ++ dquote ++ [13; 10].

(** The literal [b"Content-Type: application/octet-stream\r\n\r\n"]. *)
Definition octet_stream : bytes :=
  blit "Content-Type: application/octet-stream" ++ CRLF ++ CRLF.

(** The expression [hashlib.md5(file_content + file_name.encode()).hexdigest()]
    that [upload_file_hash_last] and [upload_batch] both evaluate. *)
Definition content_hash (file_content : bytes) (file_name : pystr) : M pystr :=
  name_bytes <- str_encode file_name ;;
  ret (hexdigest (md5 (file_content ++ name_bytes))).

Definition upload_headers (bearer boundary : pystr) : list (pystr * pystr) :=
  [(lit "Authorization", lit "Bearer " ++ bearer);
   (lit "Accept", lit "application/vnd.api+json");
   (lit "Content-Type", lit "multipart/form-data; boundary=" ++ boundary)].

Definition upload_file_hash_last (token import_id : json)
    (file_path remote_path : pystr) : M bool :=
  import <- fmt import_id ;;
  let url := BASE_URL ++ lit "/api/v1/imports/" ++ import ++ lit "/files" in
  let file_name := basename file_path in
  file_content <- read_file file_path ;;
  content_hash <- content_hash file_content file_name ;;
  now <- time_now ;;
  let boundary := lit "----TestBoundary" ++ str_of_Z now in
  bearer <- fmt token ;;
  let headers := upload_headers bearer boundary in
  let body : bytes := [] in
  (* Name part *)
  b <- str_encode (lit "--" ++ boundary ++ [13; 10]) ;;
  let body := body ++ b in
  let body := body ++ disposition "name" in
  b <- str_encode file_name ;;
  let body := body ++ b in
  let body := body ++ CRLF in
  (* Path part *)
  b <- str_encode (lit "--" ++ boundary ++ [13; 10]) ;;
  let body := body ++ b in
  let body := body ++ disposition "path" in
  b <- str_encode remote_path ;;
  let body := body ++ b in
  let body := body ++ CRLF in
  (* File part *)
  b <- str_encode (lit "--" ++ boundary ++ [13; 10]) ;;
  let body := body ++ b in
  b <- str_encode (file_disposition "file" file_name) ;;
  let body := body ++ b in
  let body := body ++ octet_stream in
  let body := body ++ file_content in
  let body := body ++ CRLF in
  (* Hash part (LAST) *)
  b <- str_encode (lit "--" ++ boundary ++ [13; 10]) ;;
  let body := body ++ b in
  let body := body ++ disposition "content_hash" in
  b <- str_encode content_hash ;;
  let body := body ++ b in
  let body := body ++ CRLF in
  b <- str_encode (lit "--" ++ boundary ++ lit "--" ++ [13; 10]) ;;
  let body := body ++ b in
  print ([10] ++ lit "Uploading " ++ file_name ++ lit " with hash LAST...") ;;
  response <- requests_post url headers (DataBytes body) ;;
  print (lit "Status: " ++ str_of_Z (status_code response)) ;;
  ret ((status_code response =? 201)%Z || (status_code response =? 200)%Z).

(** The body of the [for file_path in file_paths] loop of [upload_batch],
    run over the list; [body] is the accumulator the loop appends to. *)
Fixpoint upload_batch_loop (boundary : pystr) (file_paths : list pystr)
    (body : bytes) : M bytes :=
  match file_paths with
  | [] => ret body
  | file_path :: rest =>
      let file_name := basename file_path in
      file_content <- read_file file_path ;;
      content_hash <- content_hash file_content file_name ;;
      (* Name *)
      b <- str_encode (lit "--" ++ boundary ++ [13; 10]) ;;
      let body := body ++ b in
      let body := body ++ disposition "name[]" in
      b <- str_encode file_name ;;
      let body := body ++ b in
      let body := body ++ CRLF in
      (* Hash *)
      b <- str_encode (lit "--" ++ boundary ++ [13; 10]) ;;
      let body := body ++ b in
      let body := body ++ disposition "content_hash[]" in
      b <- str_encode content_hash ;;
      let body := body ++ b in
      let body := body ++ CRLF in
      (* File *)
      b <- str_encode (lit "--" ++ boundary ++ [13; 10]) ;;
      let body := body ++ b in
      b <- str_encode (file_disposition "file[]" file_name) ;;
      let body := body ++ b in
      let body := body ++ octet_stream in
      let body := body ++ file_content in
      let body := body ++ CRLF in
      upload_batch_loop boundary rest body
  end.

Definition upload_batch (token import_id : json) (file_paths : list pystr)
    (remote_path : pystr) : M unit :=
  import <- fmt import_id ;;
  let url := BASE_URL ++ lit "/api/v1/imports/" ++ import ++ lit "/files" in
  now <- time_now ;;
  let boundary := lit "----BatchBoundary" ++ str_of_Z now in
  bearer <- fmt token ;;
  let headers := upload_headers bearer boundary in
  let body : bytes := [] in
  print ([10] ++ lit "Attempting batch upload of "
           ++ str_of_Z (Z.of_nat (length file_paths))
           ++ lit " files (unlikely to work but testing)...") ;;
  body <- upload_batch_loop boundary file_paths body ;;
  (* Path (common) *)
  b <- str_encode (lit "--" ++ boundary ++ [13; 10]) ;;
  let body := body ++ b in
  let body := body ++ disposition "path" in
  b <- str_encode remote_path ;;
  let body := body ++ b in
  let body := body ++ CRLF in
  b <- str_encode (lit "--" ++ boundary ++ lit "--" ++ [13; 10]) ;;
  let body := body ++ b in
  response <- requests_post url headers (DataBytes body) ;;
  print (lit "Batch Status: " ++ str_of_Z (status_code response)) ;;
  print (lit "Batch Body: " ++ text response).

(** [all(os.path.exists(f) for f in files)]. *)
Fixpoint all_exist (files : list pystr) : M bool :=
  match files with
  | [] => ret true
  | f :: rest =>
      e <- path_exists f ;;
      if e then all_exist rest else ret false
  end.

Definition main : M unit :=
  token <- get_token ;;
  if negb (truthy token) then ret tt else
  team_id <- get_team_id token ;;
  team <- fmt team_id ;;
  print (lit "Team ID: " ++ team) ;;
  import_id <- create_import token team_id ;;
  import <- fmt import_id ;;
  print (lit "Import ID: " ++ import) ;;
  (* Test 1: Hash Last *)
  let test_file := lit "/root/sdcard2/Identification.json" in
  found <- path_exists test_file ;;
  (if found then
     _ <- upload_file_hash_last token import_id test_file (lit "/") ;; ret tt
   else ret tt) ;;
  (* Test 2: Batching *)
  let files := [lit "/root/sdcard2/Identification.json";
                lit "/root/sdcard2/Identification.crc"] in
  found <- all_exist files ;;
  if found then upload_batch token import_id files (lit "/") else ret tt.

(** ** The multipart body builder of the design, and a decoder

    Section 4.2 of the design describes one builder from a boundary and an
    ordered list of parts; the script writes its two bodies out by hand.
    [build_multipart] is the builder as the design words it, on bytes. *)

Inductive part :=
| Field (name value : bytes)
| FilePart (name fileName : bytes) (contentType : option bytes) (data : bytes).

Definition part_name (p : part) : bytes :=
  match p with
  | Field n _ => n
  | FilePart n _ _ _ => n
  end.

Definition part_payload (p : part) : bytes :=
  match p with
  | Field _ v => v
  | FilePart _ _ _ d => d
  end.

(** The header lines of a part, each closed by CRLF. *)
Definition part_headers (p : part) : bytes :=
  match p with
  | Field n _ =>
      blit "Content-Disposition: form-data; name=" ++ [DQ] ++ n ++ [DQ] ++ CRLF
  | FilePart n f ct _ =>
      blit "Content-Disposition: form-data; name=" ++ [DQ] ++ n ++ [DQ]
        ++ blit "; filename=" ++ [DQ] ++ f ++ [DQ] ++ CRLF
        ++ match ct with
           | Some t => blit "Content-Type: " ++ t ++ CRLF
           | None => []
           end
  end.

Definition encode_part (boundary : bytes) (p : part) : bytes :=
  blit "--" ++ boundary ++ CRLF ++ part_headers p ++ CRLF
    ++ part_payload p ++ CRLF.

Definition closing (boundary : bytes) : bytes :=
  blit "--" ++ boundary ++ blit "--" ++ CRLF.

Definition build_multipart (boundary : bytes) (parts : list part) : bytes :=
  flat_map (encode_part boundary) parts ++ closing boundary.

(** The parts either upload puts in its body. *)
Definition single_parts (file_name remote_path file_content hash : bytes)
    : list part :=
  [Field (blit "name") file_name;
   Field (blit "path") remote_path;
   FilePart (blit "file") file_name (Some (blit "application/octet-stream"))
     file_content;
   Field (blit "content_hash") hash].

Definition batch_triple (file_name hash file_content : bytes) : list part :=
  [Field (blit "name[]") file_name;
   Field (blit "content_hash[]") hash;
   FilePart (blit "file[]") file_name (Some (blit "application/octet-stream"))
     file_content].

(** *** Decoding, after RFC 2046 section 5.1.1 and RFC 7578

    The script holds no decoder; this is the framing on the receiving side.
    A delimiter line is "--" boundary at the start of a line, followed by
    optional spaces and tabs and a CRLF; the CRLF before it belongs to it.
    With "--" after the boundary it is the close-delimiter, which ends the
    body.  What stands before the first delimiter line is the preamble,
    what stands between two of them is one part: header lines up to an
    empty line, then the payload.  A part is handed over as its header
    lines, as written, and its payload: how the parameters of a header
    line are read (quoted pairs, trimming, RFC 2231) differs from reader to
    reader and is left to them. *)

Fixpoint strip_prefix (p s : bytes) : option bytes :=
  match p, s with
  | [], _ => Some s
  | a :: p', b :: s' => if Byte.eqb a b then strip_prefix p' s' else None
  | _ :: _, [] => None
  end.

(** Split at the first occurrence of [needle]. *)
Fixpoint find_sub (needle hay : bytes) : option (bytes * bytes) :=
  match strip_prefix needle hay with
  | Some rest => Some ([], rest)
  | None =>
      match hay with
      | [] => None
      | c :: hay' =>
          match find_sub needle hay' with
          | Some (before, rest) => Some (c :: before, rest)
          | None => None
          end
      end
  end.

(** Transport padding: spaces and tabs. *)
Definition is_lwsp (b : byte) : bool := Byte.eqb b x20 || Byte.eqb b x09.

Fixpoint skip_lwsp (s : bytes) : bytes :=
  match s with
  | c :: s' => if is_lwsp c then skip_lwsp s' else s
  | [] => []
  end.

(** What follows "--" boundary on a delimiter line.  Padding and CRLF: a
    part follows ([false], with what comes after the line).  "--", padding
    and CRLF or the end of the body: the close-delimiter ([true], with the
    epilogue).  Anything else: the line is no delimiter. *)
Definition delimiter_end (s : bytes) : option (bool * bytes) :=
  match strip_prefix (blit "--") s with
  | Some s' =>
      match skip_lwsp s' with
      | [] => Some (true, [])
      | e =>
          match strip_prefix CRLF e with
          | Some epilogue => Some (true, epilogue)
          | None => None
          end
      end
  | None =>
      match strip_prefix CRLF (skip_lwsp s) with
      | Some rest => Some (false, rest)
      | None => None
      end
  end.

Definition at_delimiter (delimiter s : bytes) : option (bool * bytes) :=
  match strip_prefix delimiter s with
  | Some r => delimiter_end r
  | None => None
  end.

(** Split at the first delimiter: what stands before it, whether it closes
    the body, and what comes after its line. *)
Fixpoint find_delimiter (delimiter hay : bytes)
    : option (bytes * bool * bytes) :=
  match at_delimiter delimiter hay with
  | Some (close, rest) => Some ([], close, rest)
  | None =>
      match hay with
      | [] => None
      | c :: hay' =>
          match find_delimiter delimiter hay' with
          | Some (before, close, rest) => Some (c :: before, close, rest)
          | None => None
          end
      end
  end.

(** The header lines of a part and its payload.  The lines end at the first
    empty line; a part that ends with its header lines has no payload. *)
Fixpoint read_headers (fuel : nat) (s : bytes) : option (list bytes * bytes) :=
  match fuel with
  | O => None
  | S fuel' =>
      match s with
      | [] => Some ([], [])
      | _ :: _ =>
          match find_sub CRLF s with
          | None => None
          | Some ([], rest) => Some ([], rest)
          | Some (line, rest) =>
              match read_headers fuel' rest with
              | Some (lines, rest') => Some (line :: lines, rest')
              | None => None
              end
          end
      end
  end.

Definition read_part (content : bytes) : option (list bytes * bytes) :=
  read_headers (S (length content)) content.

(** The parts from the first one on; [s] is what follows the line of a
    delimiter. *)
Fixpoint split_parts (fuel : nat) (delimiter s : bytes)
    : option (list (list bytes * bytes)) :=
  match fuel with
  | O => None
  | S fuel' =>
      match find_delimiter delimiter s with
      | None => None
      | Some (content, close, rest) =>
          match read_part content with
          | None => None
          | Some part =>
              if close then Some [part]
              else
                match split_parts fuel' delimiter rest with
                | Some raw => Some (part :: raw)
                | None => None
                end
          end
      end
  end.

(** The header lines and the payload of each part of a body.  The first
    delimiter line may open the body; what stands before it, the preamble,
    is skipped. *)
Definition frame (boundary body : bytes) : option (list (list bytes * bytes)) :=
  let delimiter := CRLF ++ blit "--" ++ boundary in
  match find_delimiter delimiter (CRLF ++ body) with
  | None => None
  | Some (_, true, _) => Some []
  | Some (_, false, s) => split_parts (length body) delimiter s
  end.

(** The field values and file bytes a body decodes to, in order. *)
Definition payloads (boundary body : bytes) : option (list bytes) :=
  option_map (map snd) (frame boundary body).

(** [needle] occurs somewhere inside [hay]. *)
Definition occurs (needle hay : bytes) : Prop :=
  exists before rest, hay = before ++ needle ++ rest.

(** A name that can stand between the quotes of a header line. *)
Definition header_safe (s : bytes) : Prop :=
  ~ In DQ s /\ ~ In CR s /\ ~ In LF s.

(** A name or a content type that stays on its header line. *)
Definition line_safe (s : bytes) : Prop :=
  ~ In CR s /\ ~ In LF s.

(** The names and the content type of a part stay on their header lines. *)
Definition part_line_safe (p : part) : Prop :=
  match p with
  | Field n _ => line_safe n
  | FilePart n f ct _ =>
      line_safe n /\ line_safe f /\
      match ct with Some t => line_safe t | None => True end
  end.

Definition part_decodable (boundary : bytes) (p : part) : Prop :=
  ~ occurs boundary (part_payload p) /\ part_line_safe p.

(** A boundary as RFC 2046 allows it: 1 to 70 characters out of digits,
    letters, space and ['()+_,-./:=?], the last one not a space. *)
Definition bchar (b : byte) : bool :=
  let n := Byte.to_N b in
  ((48 <=? n) && (n <=? 57)) || ((65 <=? n) && (n <=? 90))
  || ((97 <=? n) && (n <=? 122))
  || existsb (Byte.eqb b) (blit "'()+_,-./:=? ").

Definition rfc_boundary (b : bytes) : bool :=
  forallb bchar b && (1 <=? length b)%nat && (length b <=? 70)%nat
  && negb (Byte.eqb (last b x20) x20).





(** *** Lowercase hexadecimal, read back *)

Definition hex_value (c : N) : option N :=
  if (48 <=? c) && (c <=? 57) then Some (c - 48)
  else if (97 <=? c) && (c <=? 102) then Some (c - 87)
  else None.

Fixpoint unhex (s : pystr) : option bytes :=
  match s with
  | [] => Some []
  | [_] => None
  | h :: l :: s' =>
      match hex_value h, hex_value l, unhex s' with
      | Some a, Some b, Some r => Some (byte_of_N (16 * a + b) :: r)
      | _, _, _ => None
      end
  end.

(** ** Reading a run

    Names for what the theorems speak of: the requests, the lines and the
    bodies the functions above produce.  Each is tied to the script by a
    run lemma below. *)

(** *** Text *)

(** Every code point is ASCII. *)
Definition low (s : pystr) : bool := forallb (fun c => c <? 128) s.

(** The decimal digits of [str(z)], as bytes. *)
Definition dec_bytes (z : Z) : bytes := blit (NilZero.string_of_int (Z.to_int z)).

Definition digit_or_minus (b : byte) : bool :=
  Byte.eqb b x2d || ((48 <=? Byte.to_N b) && (Byte.to_N b <=? 57)).

(** [s] contains [sub] as a run of consecutive code points. *)
Fixpoint str_prefix (p s : pystr) : bool :=
  match p, s with
  | [], _ => true
  | a :: p', b :: s' => (a =? b) && str_prefix p' s'
  | _ :: _, [] => false
  end.

Fixpoint str_contains (sub s : pystr) : bool :=
  str_prefix sub s ||
  match s with
  | [] => false
  | _ :: s' => str_contains sub s'
  end.

(** *** The authenticator, as the design words it *)

Definition token_url : pystr := BASE_URL ++ lit "/oauth/token".

Definition credentials : pystr :=
  lit "grant_type=password&client_id=" ++ CLIENT_ID
    ++ lit "&client_secret=" ++ CLIENT_SECRET.

Definition token_request (scope : option pystr) : request :=
  Request POST token_url
    [(lit "Content-Type", lit "application/x-www-form-urlencoded")]
    (Some (DataStr (credentials ++
                    match scope with
                    | Some v => lit "&scope=" ++ v
                    | None => []
                    end))).

(** The three request shapes, in the order of the design. *)
Definition attempts : list request :=
  [token_request (Some (lit "read+write"));
   token_request (Some (lit "api"));
   token_request None].

Definition data_of (q : request) : pystr :=
  match rq_data q with
  | Some (DataStr s) => s
  | _ => []
  end.

(** The server, having seen the requests [h], answers each of the first
    [k] attempts with a status other than 200. *)
Definition rejected (w : world) (h : list request) (k : nat) : Prop :=
  forall i q, (i < k)%nat -> nth_error attempts i = Some q ->
    exists r, w_send w (h ++ firstn i attempts) q = Return r
              /\ status_code r <> 200%Z.

(** [response.json().get("access_token")]. *)
Definition access_token_of (r : response) : outcome json :=
  match json_body r with
  | None => Raised JSONDecodeError
  | Some (JObj m) =>
      Return (match assoc (lit "access_token") m with
              | Some v => v
              | None => JNull
              end)
  | Some _ => Raised AttributeError
  end.

Definition requesting_line : pystr :=
  lit "Requesting token with body: " ++ credentials ++ lit "&scope=read+write".

Definition attempt1_failed_line (r : response) : pystr :=
  lit "Token attempt 1 failed: " ++ text r.

Definition all_failed_line : pystr := lit "All token attempts failed.".

(** *** The session resolver *)

Definition me_request (bearer : pystr) : request :=
  Request GET (BASE_URL ++ lit "/api/v1/me")
    [(lit "Authorization", lit "Bearer " ++ bearer);
     (lit "Accept", lit "application/vnd.api+json")]
    None.

(** [response.json().get("data", {}).get("current_team_id")]. *)
Definition team_id_of (r : response) : outcome json :=
  match json_body r with
  | None => Raised JSONDecodeError
  | Some (JObj m) =>
      match assoc (lit "data") m with
      | None => Return JNull
      | Some (JObj d) =>
          Return (match assoc (lit "current_team_id") d with
                  | Some v => v
                  | None => JNull
                  end)
      | Some _ => Raised AttributeError
      end
  | Some _ => Raised AttributeError
  end.

(** A JSON object without the nested field [data.current_team_id]: it has
    no [data] member, or [data] is an object without [current_team_id]. *)
Definition lacks_team_id (m : list (pystr * json)) : Prop :=
  match assoc (lit "data") m with
  | None => True
  | Some (JObj d) => assoc (lit "current_team_id") d = None
  | Some _ => False
  end.

(** *** The single upload *)

Definition test_boundary (now : Z) : bytes :=
  blit "----TestBoundary" ++ dec_bytes now.

(** The bytes of the [content_hash] field: the hexadecimal digest, encoded. *)
Definition hash_bytes (file_content name_bytes : bytes) : bytes :=
  map byte_of_N (hexdigest (md5 (file_content ++ name_bytes))).

Definition files_url (import : pystr) : pystr :=
  BASE_URL ++ lit "/api/v1/imports/" ++ import ++ lit "/files".

Definition single_body (now : Z) (name_bytes path_bytes file_content : bytes)
    : bytes :=
  build_multipart (test_boundary now)
    (single_parts name_bytes path_bytes file_content
       (hash_bytes file_content name_bytes)).

Definition single_request (w : world) (t : trace) (token import_id : json)
    (name_bytes path_bytes file_content : bytes) : request :=
  Request POST (files_url (format_value w import_id))
    (upload_headers (format_value w token)
       (lit "----TestBoundary" ++ str_of_Z (w_time w t)))
    (Some (DataBytes (single_body (w_time w t) name_bytes path_bytes
                        file_content))).

Definition uploading_line (file_name : pystr) : pystr :=
  [10] ++ lit "Uploading " ++ file_name ++ lit " with hash LAST...".

(** Where each part starts in a body built from [start] on. *)
Fixpoint part_offsets (boundary : bytes) (parts : list part) (start : nat)
    : list (bytes * nat) :=
  match parts with
  | [] => []
  | p :: ps =>
      (part_name p, start)
        :: part_offsets boundary ps (start + length (encode_part boundary p))
  end.

(** *** The batch upload *)

Definition batch_boundary (now : Z) : bytes :=
  blit "----BatchBoundary" ++ dec_bytes now.

(** A file the loop of [upload_batch] meets: its encoded name and its
    content. *)
Definition read_as (w : world) (file_path : pystr) (f : bytes * bytes) : Prop :=
  encode (basename file_path) = Some (fst f) /\
  w_fs w file_path = Some (FsFile (snd f)).

Definition triple_of (f : bytes * bytes) : list part :=
  batch_triple (fst f) (hash_bytes (snd f) (fst f)) (snd f).

Definition batch_parts (files : list (bytes * bytes)) (path_bytes : bytes)
    : list part :=
  flat_map triple_of files ++ [Field (blit "path") path_bytes].

Definition batch_request (w : world) (t : trace) (token import_id : json)
    (files : list (bytes * bytes)) (path_bytes : bytes) : request :=
  Request POST (files_url (format_value w import_id))
    (upload_headers (format_value w token)
       (lit "----BatchBoundary" ++ str_of_Z (w_time w t)))
    (Some (DataBytes (build_multipart (batch_boundary (w_time w t))
                        (batch_parts files path_bytes)))).

Definition attempting_line (n : nat) : pystr :=
  [10] ++ lit "Attempting batch upload of " ++ str_of_Z (Z.of_nat n)
    ++ lit " files (unlikely to work but testing)...".

Fixpoint bytes_eqb (a b : bytes) : bool :=
  match a, b with
  | [], [] => true
  | x :: a', y :: b' => Byte.eqb x y && bytes_eqb a' b'
  | _, _ => false
  end.

(** How many parts carry the field name [name]. *)
Definition count_named (name : bytes) (parts : list part) : nat :=
  length (filter (fun p => bytes_eqb (part_name p) name) parts).

(** *** The shape of a built body, for the decoder *)

(** What follows the opening dash-boundary of a built body. *)
Fixpoint body_tail (boundary : bytes) (parts : list part) : bytes :=
  match parts with
  | [] => blit "--" ++ CRLF
  | p :: ps =>
      CRLF ++ part_headers p ++ CRLF ++ part_payload p
        ++ (CRLF ++ blit "--" ++ boundary) ++ body_tail boundary ps
  end.

Definition disposition_line (p : part) : bytes :=
  match p with
  | Field n _ =>
      blit "Content-Disposition: form-data; name=" ++ [DQ] ++ n ++ [DQ]
  | FilePart n f _ _ =>
      blit "Content-Disposition: form-data; name=" ++ [DQ] ++ n ++ [DQ]
        ++ blit "; filename=" ++ [DQ] ++ f ++ [DQ]
  end.

Definition header_lines (p : part) : list bytes :=
  disposition_line p ::
  match p with
  | FilePart _ _ (Some t) _ => [blit "Content-Type: " ++ t]
  | _ => []
  end.

(** A header line of the builder: it holds no CR and does not open with a
    dash. *)
Definition header_line_ok (l : bytes) : Prop :=
  ~ In CR l /\ exists c tl, l = c :: tl /\ c <> x2d.

(** [x] put in front of what [find_delimiter] found. *)
Definition prepend (x : bytes) (r : option (bytes * bool * bytes))
    : option (bytes * bool * bytes) :=
  match r with
  | Some (a, close, rest) => Some (x ++ a, close, rest)
  | None => None
  end.

(** A part as framing hands it over. *)
Definition framed (p : part) : list bytes * bytes :=
  (header_lines p, part_payload p).


(** ** Concrete worlds *)

Definition no_files : pystr -> option fsnode := fun _ => None.

(** The token endpoint refuses every body that names a scope and grants
    the token [tok-3] otherwise; [/me] answers 200 with an empty object. *)
Definition w_noscope : world :=
  World
    (fun _ q =>
       if str_contains (lit "scope") (data_of q)
       then Return (Response 400 (lit "invalid_scope") None)
       else Return (Response 200 (lit "{}")
                      (Some (JObj [(lit "access_token", JStr (lit "tok-3"))]))))
    no_files (fun _ => 1700000000%Z) (fun _ => lit "?").

(** The token endpoint refuses the three attempts, each with a reason of
    its own. *)
Definition w_deny : world :=
  World
    (fun h _ =>
       Return (Response 401
                 (nth (length h)
                    [lit "invalid_scope"; lit "unsupported_scope"] (lit "invalid_grant"))
                 None))
    no_files (fun _ => 1700000000%Z) (fun _ => lit "?").

(** [/me] answers 200 with [{"data": {}}]. *)
Definition w_no_team : world :=
  World
    (fun _ _ => Return (Response 200 (lit "{data: {}}")
                          (Some (JObj [(lit "data", JObj [])]))))
    no_files (fun _ => 1700000000%Z) (fun _ => lit "?").

(** The files of the probe: [id.json] holds ten bytes. *)
Definition probe_fs (path : pystr) : option fsnode :=
  if str_eqb path (lit "/root/sdcard2/id.json")
  then Some (FsFile (blit "0123456789"))
  else if str_eqb path (lit "/root/sdcard2/id.crc")
  then Some (FsFile (blit "crc!"))
  else None.

(** Every endpoint answers 201; the JSON names a token, a team and an
    import at once. *)
Definition created : response :=
  Response 201 (lit "created")
    (Some (JObj [(lit "access_token", JStr (lit "tok"));
                 (lit "data",
                  JObj [(lit "current_team_id", JInt 42);
                        (lit "id", JStr (lit "999"))])])).

Definition w_created : world :=
  World (fun _ _ => Return created) probe_fs (fun _ => 1700000000%Z)
    (fun _ => lit "?").



(** Scenario A of the design: the token endpoint grants a token at the
    first attempt, [/me] names team 42, the import is created as [999],
    the upload is answered 201; only [Identification.json], ten bytes,
    is on the card. *)
Definition scenario_a_server (q : request) : response :=
  if str_contains (lit "/oauth/token") (rq_url q) then
    Response 200 (lit "token")
      (Some (JObj [(lit "access_token", JStr (lit "tok"))]))
  else if str_contains (lit "/api/v1/me") (rq_url q) then
    Response 200 (lit "me")
      (Some (JObj [(lit "data", JObj [(lit "current_team_id", JInt 42)])]))
  else if str_contains (lit "/teams/") (rq_url q) then
    Response 201 (lit "import")
      (Some (JObj [(lit "data", JObj [(lit "id", JStr (lit "999"))])]))
  else Response 201 (lit "file") None.

Definition w_scenario_a : world :=
  World (fun _ q => Return (scenario_a_server q))
    (fun path =>
       if str_eqb path (lit "/root/sdcard2/Identification.json")
       then Some (FsFile (blit "0123456789"))
       else None)
    (fun _ => 1700000000%Z) (fun _ => lit "?").

(** *** The import session manager *)

Definition import_request (w : world) (token team_id : json) : request :=
  Request POST
    (BASE_URL ++ lit "/api/v1/teams/" ++ format_value w team_id
       ++ lit "/imports")
    [(lit "Authorization", lit "Bearer " ++ format_value w token);
     (lit "Accept", lit "application/vnd.api+json");
     (lit "Content-Type", lit "application/vnd.api+json")]
    (Some (DataStr import_payload)).

(** [response.json().get("data", {}).get("id")]. *)
Definition import_id_of (r : response) : outcome json :=
  match json_body r with
  | None => Raised JSONDecodeError
  | Some (JObj m) =>
      match assoc (lit "data") m with
      | None => Return JNull
      | Some (JObj d) =>
          Return (match assoc (lit "id") d with
                  | Some v => v
                  | None => JNull
                  end)
      | Some _ => Raised AttributeError
      end
  | Some _ => Raised AttributeError
  end.

Definition creating_line (w : world) (team_id : json) : pystr :=
  lit "Creating import for team " ++ format_value w team_id ++ lit "...".

Definition import_error_line (r : response) : pystr :=
  lit "Create import error: " ++ str_of_Z (status_code r) ++ lit " " ++ text r.

Definition is_object (j : json) : bool :=
  match j with
  | JObj _ => true
  | _ => false
  end.

(** Every endpoint answers 200 with a [data] member that is null. *)
Definition w_null_data : world :=
  World
    (fun _ _ => Return (Response 200 (lit "{data: null}")
                          (Some (JObj [(lit "data", JNull)]))))
    no_files (fun _ => 1700000000%Z) (fun _ => lit "?").

(** *** What a computation adds to the trace *)

(** Run in the world [w] from any trace, [c] only appends events, and the
    events it appends all satisfy [P]. *)
Definition emits_in (w : world) (P : event -> Prop) {A : Type} (c : M A)
    : Prop :=
  forall t, exists new, snd (c w t) = t ++ new /\ Forall P new.

(** An event that carries no multipart body: a printed line, or a request
    whose data is a [str] or absent. *)
Definition text_only (e : event) : Prop :=
  match e with
  | Printed _ => True
  | Sent q =>
      match rq_data q with
      | Some (DataBytes _) => False
      | _ => True
      end
  end.

Definition test_file : pystr := lit "/root/sdcard2/Identification.json".

Definition crc_file : pystr := lit "/root/sdcard2/Identification.crc".

(** The token endpoint grants a token; every other endpoint answers 500;
    the test file is on the card. *)
Definition w_setup_fails : world :=
  World
    (fun _ q =>
       if str_contains (lit "/oauth/token") (rq_url q)
       then Return (Response 200 (lit "token")
                      (Some (JObj [(lit "access_token", JStr (lit "tok"))])))
       else Return (Response 500 (lit "down") None))
    (fun path =>
       if str_eqb path test_file then Some (FsFile (blit "0123456789"))
       else None)
    (fun _ => 1700000000%Z) (fun _ => lit "?").

(** An event that is not a batch upload: no request whose multipart body
    opens with the dash-boundary of [upload_batch]. *)
Definition not_batch (e : event) : Prop :=
  match e with
  | Printed _ => True
  | Sent q =>
      match rq_data q with
      | Some (DataBytes body) =>
          strip_prefix (blit "------BatchBoundary") body = None
      | _ => True
      end
  end.

(** ** The build fragment [library_build.py]

    The fragment computes one directory from the construction variable
    [PROJECT_SRC_DIR] and hands lists of paths, definitions and flags to
    the build environment.  The values it computes are embedded here; what
    [env.Append] does with them is the build system's. *)

(** [s.replace(old, new)]: every occurrence, left to right, without
    overlap.  [skip] counts the code points of a match still to pass. *)
Fixpoint replace_from (old new : pystr) (skip : nat) (s : pystr) : pystr :=
  match s with
  | [] => []
  | c :: s' =>
      match skip with
      | S k => replace_from old new k s'
      | O =>
          if str_prefix old s
          then new ++ replace_from old new (length old - 1) s'
          else c :: replace_from old new 0 s'
      end
  end.

Definition str_replace (old new s : pystr) : pystr :=
  match old with
  | [] => new ++ flat_map (fun c => c :: new) s
  | _ :: _ => replace_from old new 0 s
  end.

Definition ends_with_slash (s : pystr) : bool :=
  match rev s with
  | c :: _ => c =? slash
  | [] => false
  end.

(** [os.path.join(a, b)] (posixpath). *)
Definition path_join (a b : pystr) : pystr :=
  if str_prefix [slash] b then b
  else if match a with [] => true | _ => ends_with_slash a end then a ++ b
  else a ++ [slash] ++ b.

(** [env.get("PROJECT_SRC_DIR", "").replace("/src", "/components/libsmb2")];
    [None] is a variable that is not set. *)
Definition lib_source_dir (project_src_dir : option pystr) : pystr :=
  str_replace (lit "/src") (lit "/components/libsmb2")
    (match project_src_dir with
     | Some d => d
     | None => []
     end).

(** The list given to [env.Append(CPPPATH=...)]. *)
Definition CPPPATH (project_src_dir : option pystr) : list pystr :=
  [path_join (lib_source_dir project_src_dir) (lit "include");
   path_join (lib_source_dir project_src_dir) (lit "include/smb2");
   path_join (lib_source_dir project_src_dir) (lit "include/esp");
   path_join (lib_source_dir project_src_dir) (lit "lib")].

(** The list given to [env.Append(CPPDEFINES=...)]: names, and one name
    with a value. *)
Definition CPPDEFINES : list (pystr * option pystr) :=
  [(lit "HAVE_CONFIG_H", None); (lit "NEED_READV", None);
   (lit "NEED_WRITEV", None); (lit "NEED_GETLOGIN_R", None);
   (lit "NEED_RANDOM", None); (lit "NEED_SRANDOM", None);
   (lit "_U_", Some [])].

(** The list given to [env.Append(CCFLAGS=...)]. *)
Definition CCFLAGS (project_src_dir : option pystr) : list pystr :=
  [lit "-Wno-implicit-function-declaration";
   lit "-Wno-builtin-declaration-mismatch";
   lit "-include";
   path_join (lib_source_dir project_src_dir) (lit "lib/esp_compat_wrapper.h")].

(** [sub] occurs somewhere inside the string [s]. *)
Definition occurs_in (sub s : pystr) : Prop :=
  exists before rest, s = before ++ sub ++ rest.

(** The token endpoint grants a token; every other endpoint answers 200
    with a [data] member that is null. *)
Definition w_token_then_null : world :=
  World
    (fun _ q =>
       if str_contains (lit "/oauth/token") (rq_url q)
       then Return (Response 200 (lit "token")
                      (Some (JObj [(lit "access_token", JStr (lit "tok"))])))
       else Return (Response 200 (lit "{data: null}")
                      (Some (JObj [(lit "data", JNull)]))))
    no_files (fun _ => 1700000000%Z) (fun _ => lit "?").

(** * Properties *)

(** ** The library functions on known values *)

Example md5_empty : hexdigest (md5 []) = lit "d41d8cd98f00b204e9800998ecf8427e".
Proof. vm_compute. reflexivity. Qed.

Example md5_abc : hexdigest (md5 (blit "abc")) = lit "900150983cd24fb0d6963f7d28e17f72".
Proof. vm_compute. reflexivity. Qed.

Example md5_fox :
  hexdigest (md5 (blit "The quick brown fox jumps over the lazy dog"))
  = lit "9e107d9d372bb6826bd81d3542a419d6".
Proof. vm_compute. reflexivity. Qed.

Example md5_a56 :
  hexdigest (md5 (repeat x61 56)) = lit "3b0c8ac703f828b04c6c197006d17218".
Proof. vm_compute. reflexivity. Qed.

Example md5_a64 :
  hexdigest (md5 (repeat x61 64)) = lit "014842d480b571495a4a0363793f7367".
Proof. vm_compute. reflexivity. Qed.

Example encode_e_acute_euro_grin :
  option_map (map Byte.to_N) (encode [0xE9; 0x20AC; 0x1F600])
  = Some [0xc3; 0xa9; 0xe2; 0x82; 0xac; 0xf0; 0x9f; 0x98; 0x80].
Proof. vm_compute. reflexivity. Qed.

Example basename_ex :
  basename (lit "/root/sdcard2/Identification.json") = lit "Identification.json".
Proof. vm_compute. reflexivity. Qed.

(** [open] on paths that are no file: a null character, a lone surrogate,
    an escaped byte, both defects at once, a plain missing name. *)
Example open_error_ex :
  open_error [97; 0; 98] = ValueError /\
  open_error [0xD800] = UnicodeEncodeError /\
  open_error [0xDC80] = OSError /\
  open_error [0; 0xD800] = UnicodeEncodeError /\
  open_error (lit "/nonexistent/x") = OSError.
Proof. repeat split. Qed.

Example str_of_Z_ex : str_of_Z 1700000000 = lit "1700000000" /\ str_of_Z (-5) = lit "-5".
Proof. vm_compute. auto. Qed.

(** ** Bytes, literals and [encode] *)

Lemma byte_of_to_N (b : byte) : byte_of_N (Byte.to_N b) = b.
Proof.
  unfold byte_of_N.
  rewrite N.mod_small by (pose proof (Byte.to_N_bounded b); lia).
  now rewrite Byte.of_to_N.
Qed.

Lemma to_N_byte_of_N (n : N) : n < 256 -> Byte.to_N (byte_of_N n) = n.
Proof.
  intros H. unfold byte_of_N. rewrite N.mod_small by exact H.
  destruct (Byte.of_N n) eqn:E.
  - now apply Byte.to_of_N.
  - apply Byte.of_N_None_iff in E. lia.
Qed.

Lemma encode_low (s : pystr) : low s = true -> encode s = Some (map byte_of_N s).
Proof.
  induction s as [|c s IH]; simpl; [reflexivity|].
  intros H. apply andb_true_iff in H as [Hc Hs].
  rewrite (IH Hs). unfold encode_cp.
  replace (c <? 0x80) with true by (symmetry; exact Hc). reflexivity.
Qed.

Lemma encode_app (a b : pystr) :
  encode (a ++ b) =
  match encode a, encode b with
  | Some x, Some y => Some (x ++ y)
  | _, _ => None
  end.
Proof.
  induction a as [|c a IH]; simpl.
  - destruct (encode b); reflexivity.
  - rewrite IH. destruct (encode_cp c), (encode a), (encode b); try reflexivity.
    now rewrite app_assoc.
Qed.

Lemma lit_low (s : string) :
  low (lit s) = true -> encode (lit s) = Some (blit s).
Proof.
  intros H. rewrite (encode_low _ H). unfold lit, blit.
  rewrite map_map. f_equal. rewrite <- (map_id (list_byte_of_string s)) at 2.
  apply map_ext. intros b. apply byte_of_to_N.
Qed.

Lemma uint_chars (d : Decimal.uint) :
  forallb digit_or_minus (blit (NilEmpty.string_of_uint d)) = true.
Proof. induction d; simpl; auto. Qed.

Lemma nz_uint_chars (d : Decimal.uint) :
  forallb digit_or_minus (blit (NilZero.string_of_uint d)) = true.
Proof.
  destruct d; try reflexivity;
    match goal with
    | |- context [NilZero.string_of_uint ?x] => exact (uint_chars x)
    end.
Qed.

Lemma dec_bytes_chars (z : Z) : forallb digit_or_minus (dec_bytes z) = true.
Proof.
  unfold dec_bytes. destruct (Z.to_int z) as [d|d].
  - apply nz_uint_chars.
  - change (digit_or_minus x2d && forallb digit_or_minus (blit (NilZero.string_of_uint d)) = true).
    now rewrite nz_uint_chars.
Qed.

Lemma str_of_Z_dec (z : Z) : str_of_Z z = map Byte.to_N (dec_bytes z).
Proof. reflexivity. Qed.

Lemma digit_or_minus_low (b : byte) : digit_or_minus b = true -> Byte.to_N b < 128.
Proof.
  unfold digit_or_minus. intros H. apply orb_true_iff in H as [H|H].
  - apply Byte.byte_dec_bl in H. subst b. reflexivity.
  - apply andb_true_iff in H as [_ H]. apply N.leb_le in H. lia.
Qed.

Lemma encode_str_of_Z (z : Z) : encode (str_of_Z z) = Some (dec_bytes z).
Proof.
  rewrite str_of_Z_dec. rewrite encode_low.
  - rewrite map_map. f_equal. rewrite <- (map_id (dec_bytes z)) at 2.
    apply map_ext, byte_of_to_N.
  - unfold low. rewrite forallb_forall. intros c Hc.
    apply in_map_iff in Hc as (b & <- & Hb). apply N.ltb_lt.
    apply digit_or_minus_low.
    pose proof (dec_bytes_chars z) as H. rewrite forallb_forall in H. auto.
Qed.

Lemma dec_bytes_no (c : byte) (z : Z) :
  digit_or_minus c = false -> ~ In c (dec_bytes z).
Proof.
  intros Hc Hin. pose proof (dec_bytes_chars z) as H.
  rewrite forallb_forall in H. specialize (H c Hin). congruence.
Qed.

(** ** Runs of the authenticator *)

Lemma requests_of_app (a b : trace) :
  requests_of (a ++ b) = requests_of a ++ requests_of b.
Proof. apply flat_map_app. Qed.

Lemma printed_of_app (a b : trace) :
  printed_of (a ++ b) = printed_of a ++ printed_of b.
Proof. apply flat_map_app. Qed.

Lemma access_token_run (r : response) (w : world) (t : trace) :
  (j <- response_json r ;; dict_get j (lit "access_token") JNull) w t
  = (access_token_of r, t).
Proof.
  unfold bind, response_json, access_token_of, dict_get.
  destruct (json_body r) as [[]|]; reflexivity.
Qed.

Lemma get_token_run (w : world) (t : trace) :
  get_token w t =
  let h := requests_of t in
  let q1 := token_request (Some (lit "read+write")) in
  let q2 := token_request (Some (lit "api")) in
  let q3 := token_request None in
  let t1 := t ++ [Printed requesting_line; Sent q1] in
  match w_send w h q1 with
  | Raised e => (Raised e, t1)
  | Return r1 =>
      if (status_code r1 =? 200)%Z then (access_token_of r1, t1)
      else
        let t2 := t1 ++ [Printed (attempt1_failed_line r1); Sent q2] in
        match w_send w (h ++ [q1]) q2 with
        | Raised e => (Raised e, t2)
        | Return r2 =>
            if (status_code r2 =? 200)%Z then (access_token_of r2, t2)
            else
              let t3 := t2 ++ [Sent q3] in
              match w_send w (h ++ [q1; q2]) q3 with
              | Raised e => (Raised e, t3)
              | Return r3 =>
                  if (status_code r3 =? 200)%Z then (access_token_of r3, t3)
                  else (Return JNull, t3 ++ [Printed all_failed_line])
              end
        end
  end.
Proof.
  unfold get_token. cbv zeta.
  change (DataStr (_ ++ _ ++ _ ++ _ ++ lit "&scope=read+write"))
    with (DataStr (credentials ++ lit "&scope=" ++ lit "read+write")).
  change (DataStr (_ ++ _ ++ _ ++ _ ++ lit "&scope=api"))
    with (DataStr (credentials ++ lit "&scope=" ++ lit "api")).
  change (DataStr (lit "grant_type=password&client_id=" ++ CLIENT_ID
                     ++ lit "&client_secret=" ++ CLIENT_SECRET))
    with (DataStr (credentials ++ [])).
  change (lit "Requesting token with body: " ++ _) with requesting_line.
  fold token_url.
  repeat match goal with
  | |- context [requests_post ?u ?h (DataStr (credentials ++ ?s))] =>
      change (requests_post u h (DataStr (credentials ++ s)))
        with (send (Request POST u h (Some (DataStr (credentials ++ s)))))
  end.
  change (Request POST token_url _ (Some (DataStr (credentials ++ lit "&scope=" ++ lit "read+write"))))
    with (token_request (Some (lit "read+write"))).
  change (Request POST token_url _ (Some (DataStr (credentials ++ lit "&scope=" ++ lit "api"))))
    with (token_request (Some (lit "api"))).
  change (Request POST token_url _ (Some (DataStr (credentials ++ []))))
    with (token_request None).
  unfold bind at 1 2. unfold print at 1, send at 1.
  rewrite requests_of_app, app_nil_r. rewrite <- app_assoc. cbn [app].
  destruct (w_send w (requests_of t) _) as [r1|e]; [|reflexivity].
  destruct (status_code r1 =? 200)%Z; [apply access_token_run|].
  unfold bind at 1 2. unfold print at 1, send at 1.
  repeat rewrite requests_of_app. cbn [requests_of flat_map app].
  rewrite app_nil_r. repeat rewrite <- app_assoc. cbn [app].
  destruct (w_send w _ (token_request (Some (lit "api")))) as [r2|e]; [|reflexivity].
  destruct (status_code r2 =? 200)%Z; [apply access_token_run|].
  unfold bind at 1. unfold send at 1.
  repeat rewrite requests_of_app. cbn [requests_of flat_map app].
  repeat rewrite <- app_assoc. cbn [app].
  destruct (w_send w _ (token_request None)) as [r3|e]; [|reflexivity].
  destruct (status_code r3 =? 200)%Z; [apply access_token_run|].
  unfold bind, print, ret. repeat rewrite <- app_assoc. reflexivity.
Qed.

Lemma get_team_id_run (token : json) (w : world) (t : trace) :
  get_team_id token w t =
  let q := me_request (format_value w token) in
  (match w_send w (requests_of t) q with
   | Raised e => Raised e
   | Return r => if (status_code r =? 200)%Z then team_id_of r else Return JNull
   end, t ++ [Sent q]).
Proof.
  unfold get_team_id, bind, fmt, requests_get, send, me_request. cbv zeta.
  destruct (w_send w (requests_of t) _) as [r|e]; [|reflexivity].
  destruct (status_code r =? 200)%Z; [|reflexivity].
  unfold response_json, team_id_of, dict_get, ret, raise.
  destruct (json_body r) as [[| | | | | |m]|]; try reflexivity.
  destruct (assoc (lit "data") m) as [[]|]; reflexivity.
Qed.

(** C2. [get_token] posts the three credential bodies in the order
    scope [read+write], scope [api], no scope; when the attempts before
    the [k]-th were answered with a status other than 200 and the [k]-th
    with 200, it returns the [access_token] of that answer and has sent
    exactly the attempts up to it, none after. *)
Theorem get_token_first_success (w : world) (t : trace) (k : nat)
    (q : request) (r : response) :
  nth_error attempts k = Some q ->
  rejected w (requests_of t) k ->
  w_send w (requests_of t ++ firstn k attempts) q = Return r ->
  status_code r = 200%Z ->
  fst (get_token w t) = access_token_of r /\
  requests_of (snd (get_token w t)) = requests_of t ++ firstn (S k) attempts /\
  map data_of attempts
  = [credentials ++ lit "&scope=read+write"; credentials ++ lit "&scope=api";
     credentials] /\
  str_contains (lit "scope") credentials = false.
Proof.
  intros Hq Hrej Hr Hs.
  assert (E200 : (status_code r =? 200)%Z = true) by now apply Z.eqb_eq.
  assert (G : exists t', get_token w t = (access_token_of r, t') /\
                requests_of t' = requests_of t ++ firstn (S k) attempts).
  { rewrite get_token_run. cbv zeta.
    destruct k as [|[|[|[|k]]]]; cbn in Hq; try discriminate;
      [| destruct (Hrej 0%nat _ ltac:(lia) eq_refl) as (r1 & E1 & N1)
       | destruct (Hrej 0%nat _ ltac:(lia) eq_refl) as (r1 & E1 & N1);
         destruct (Hrej 1%nat _ ltac:(lia) eq_refl) as (r2 & E2 & N2) ];
      injection Hq as <-; cbn [firstn attempts] in *;
      rewrite ?app_nil_r in *;
      repeat match goal with
             | N : status_code _ <> 200%Z |- _ => apply Z.eqb_neq in N
             end.
    - rewrite Hr, E200. eexists. split; [reflexivity|].
      rewrite requests_of_app. reflexivity.
    - rewrite E1, N1, Hr, E200. eexists. split; [reflexivity|].
      rewrite !requests_of_app. cbn. now rewrite <- app_assoc.
    - rewrite E1, N1, E2, N2, Hr, E200. eexists. split; [reflexivity|].
      rewrite !requests_of_app. cbn. now rewrite <- !app_assoc. }
  destruct G as (t' & -> & G). repeat split; try reflexivity. exact G.
Qed.

Lemma get_token_first_success_witness :
  fst (get_token w_noscope []) = Return (JStr (lit "tok-3")) /\
  requests_of (snd (get_token w_noscope [])) = attempts.
Proof.
  pose proof (get_token_first_success w_noscope [] 2 (token_request None)
                (Response 200 (lit "{}")
                   (Some (JObj [(lit "access_token", JStr (lit "tok-3"))]))))
    as H.
  destruct H as (H1 & H2 & _).
  - reflexivity.
  - intros i q Hi Hq. destruct i as [|[|i]]; [| |lia];
      injection Hq as <-;
      (exists (Response 400 (lit "invalid_scope") None));
      (split; [reflexivity | discriminate]).
  - reflexivity.
  - reflexivity.
  - split; [exact H1 | exact H2].
Defined.

Lemma get_token_all_rejected (w : world) (t : trace) :
  rejected w (requests_of t) 3 ->
  exists r1,
    w_send w (requests_of t) (token_request (Some (lit "read+write")))
    = Return r1 /\
    get_token w t =
    (Return JNull,
     t ++ [Printed requesting_line; Sent (token_request (Some (lit "read+write")));
           Printed (attempt1_failed_line r1);
           Sent (token_request (Some (lit "api")));
           Sent (token_request None);
           Printed all_failed_line]).
Proof.
  intros Hrej.
  destruct (Hrej 0%nat _ ltac:(lia) eq_refl) as (r1 & E1 & N1).
  destruct (Hrej 1%nat _ ltac:(lia) eq_refl) as (r2 & E2 & N2).
  destruct (Hrej 2%nat _ ltac:(lia) eq_refl) as (r3 & E3 & N3).
  cbn [firstn attempts] in *. rewrite ?app_nil_r in *.
  exists r1. split; [exact E1|]. rewrite get_token_run. cbv zeta.
  apply Z.eqb_neq in N1, N2, N3.
  rewrite E1, N1, E2, N2, E3, N3. rewrite <- !app_assoc. reflexivity.
Qed.

(** C3. When the server answers each of the three attempts with a status
    other than 200, [get_token] returns [None], and [main] returns having
    sent the three token requests and nothing else. *)
Theorem all_attempts_rejected_aborts (w : world) (t : trace) :
  rejected w (requests_of t) 3 ->
  fst (get_token w t) = Return JNull /\
  fst (main w t) = Return tt /\
  requests_of (snd (main w t)) = requests_of t ++ attempts /\
  snd (main w t) = snd (get_token w t).
Proof.
  intros Hrej. destruct (get_token_all_rejected w t Hrej) as (r1 & _ & E).
  unfold main, bind. rewrite E. cbn [fst snd truthy negb].
  repeat split; try reflexivity.
  unfold ret. cbn [snd]. rewrite requests_of_app. reflexivity.
Qed.

Lemma all_attempts_rejected_aborts_witness :
  fst (get_token w_deny []) = Return JNull /\
  fst (main w_deny []) = Return tt /\
  requests_of (snd (main w_deny [])) = attempts /\
  snd (main w_deny []) = snd (get_token w_deny []).
Proof.
  apply (all_attempts_rejected_aborts w_deny []).
  intros i q Hi Hq. destruct i as [|[|[|i]]]; [| | |lia];
    injection Hq as <-; eexists; (split; [reflexivity | discriminate]).
Defined.

(** Whatever the server, three refusals leave three lines: the request,
    the reason of the first refusal, the summary. *)
Lemma get_token_prints_when_rejected (w : world) (t : trace) :
  rejected w (requests_of t) 3 ->
  exists r1,
    w_send w (requests_of t) (token_request (Some (lit "read+write")))
    = Return r1 /\
    printed_of (snd (get_token w t))
    = printed_of t
      ++ [requesting_line; attempt1_failed_line r1; all_failed_line].
Proof.
  intros Hrej. destruct (get_token_all_rejected w t Hrej) as (r1 & E1 & E).
  exists r1. split; [exact E1|]. rewrite E. cbn [snd].
  rewrite printed_of_app. reflexivity.
Qed.

(** C7. Against a server that refuses the three attempts with the reasons
    [invalid_scope], [unsupported_scope] and [invalid_grant], [get_token]
    prints the reason of the first attempt only: no line it prints carries
    the reason of the second or of the third. *)
Theorem get_token_logs_first_failure_only :
  let q1 := token_request (Some (lit "read+write")) in
  let q2 := token_request (Some (lit "api")) in
  let q3 := token_request None in
  w_send w_deny [q1] q2 = Return (Response 401 (lit "unsupported_scope") None) /\
  w_send w_deny [q1; q2] q3 = Return (Response 401 (lit "invalid_grant") None) /\
  get_token w_deny []
  = (Return JNull,
     [Printed requesting_line; Sent q1;
      Printed (lit "Token attempt 1 failed: invalid_scope");
      Sent q2; Sent q3; Printed all_failed_line]) /\
  existsb (str_contains (lit "unsupported_scope"))
    (printed_of (snd (get_token w_deny []))) = false /\
  existsb (str_contains (lit "invalid_grant"))
    (printed_of (snd (get_token w_deny []))) = false.
Proof. vm_compute. repeat split. Qed.

(** C10. [get_team_id] returns [None] on a 200 answer whose JSON object
    has no [data] member, or a [data] object without [current_team_id]:
    a [None] result does not tell a failed request. *)
Theorem get_team_id_none_on_success (token : json) (w : world) (t : trace)
    (r : response) (m : list (pystr * json)) :
  w_send w (requests_of t) (me_request (format_value w token)) = Return r ->
  status_code r = 200%Z ->
  json_body r = Some (JObj m) ->
  lacks_team_id m ->
  fst (get_team_id token w t) = Return JNull.
Proof.
  intros Hr Hs Hj Hm. rewrite get_team_id_run. cbv zeta. cbn [fst].
  rewrite Hr. apply Z.eqb_eq in Hs. rewrite Hs.
  unfold team_id_of. rewrite Hj. unfold lacks_team_id in Hm.
  destruct (assoc (lit "data") m) as [[]|]; try contradiction; try reflexivity.
  now rewrite Hm.
Qed.

Lemma get_team_id_none_on_success_witness :
  fst (get_team_id (JStr (lit "tok")) w_no_team []) = Return JNull.
Proof.
  apply (get_team_id_none_on_success (JStr (lit "tok")) w_no_team []
           (Response 200 (lit "{data: {}}") (Some (JObj [(lit "data", JObj [])])))
           [(lit "data", JObj [])]).
  - reflexivity.
  - reflexivity.
  - reflexivity.
  - reflexivity.
Defined.

(** ** Runs of the single upload *)

Lemma bind_run {A B} (c : M A) (k : A -> M B) (w : world) (t t' : trace) (a : A) :
  c w t = (Return a, t') -> bind c k w t = k a w t'.
Proof. intros E. unfold bind. now rewrite E. Qed.

Lemma str_encode_run (s : pystr) (b : bytes) (w : world) (t : trace) :
  encode s = Some b -> str_encode s w t = (Return b, t).
Proof. intros E. unfold str_encode. now rewrite E. Qed.

Lemma read_file_run (path : pystr) (content : bytes) (w : world) (t : trace) :
  w_fs w path = Some (FsFile content) -> read_file path w t = (Return content, t).
Proof. intros E. unfold read_file. now rewrite E. Qed.

Lemma encode_hexdigest (d : bytes) :
  encode (hexdigest d) = Some (map byte_of_N (hexdigest d)).
Proof.
  apply encode_low. unfold low, hexdigest.
  induction d as [|b d IH]; [reflexivity|].
  cbn [flat_map]. rewrite forallb_app, IH, andb_true_r.
  destruct b; reflexivity.
Qed.

Lemma content_hash_run (file_content : bytes) (file_name : pystr)
    (name_bytes : bytes) (w : world) (t : trace) :
  encode file_name = Some name_bytes ->
  content_hash file_content file_name w t
  = (Return (hexdigest (md5 (file_content ++ name_bytes))), t).
Proof.
  intros E. unfold content_hash.
  rewrite (bind_run _ _ _ _ _ _ (str_encode_run _ _ w t E)). reflexivity.
Qed.

Lemma encode_crlf : encode [13; 10] = Some CRLF.
Proof. reflexivity. Qed.

Lemma encode_dquote : encode dquote = Some [DQ].
Proof. reflexivity. Qed.

Ltac encode_solve :=
  unfold file_disposition;
  repeat rewrite encode_app;
  repeat rewrite encode_str_of_Z;
  repeat rewrite encode_hexdigest;
  repeat rewrite encode_crlf;
  repeat rewrite encode_dquote;
  repeat rewrite lit_low by reflexivity;
  repeat match goal with
         | H : encode ?s = Some _ |- context [encode ?s] => rewrite H
         end;
  cbn beta iota; reflexivity.

Ltac run_step :=
  lazymatch goal with
  | |- bind (str_encode ?s) ?k ?w ?t = _ =>
      erewrite (bind_run (str_encode s) k w t);
      [| apply str_encode_run; encode_solve]
  | |- bind (read_file ?p) ?k ?w ?t = _ =>
      erewrite (bind_run (read_file p) k w t);
      [| apply read_file_run; eassumption]
  | |- bind (content_hash ?c ?n) ?k ?w ?t = _ =>
      erewrite (bind_run (content_hash c n) k w t);
      [| apply content_hash_run; eassumption]
  | |- bind ?c ?k ?w ?t = _ =>
      erewrite (bind_run c k w t); [| reflexivity]
  end;
  cbv beta zeta.

Lemma upload_file_hash_last_run (token import_id : json)
    (file_path remote_path : pystr) (file_content name_bytes path_bytes : bytes)
    (w : world) (t : trace) :
  w_fs w file_path = Some (FsFile file_content) ->
  encode (basename file_path) = Some name_bytes ->
  encode remote_path = Some path_bytes ->
  upload_file_hash_last token import_id file_path remote_path w t =
  let q := single_request w t token import_id name_bytes path_bytes
             file_content in
  let t1 := t ++ [Printed (uploading_line (basename file_path)); Sent q] in
  match w_send w (requests_of t) q with
  | Raised e => (Raised e, t1)
  | Return r =>
      (Return ((status_code r =? 201)%Z || (status_code r =? 200)%Z),
       t1 ++ [Printed (lit "Status: " ++ str_of_Z (status_code r))])
  end.
Proof.
  intros Hfs Hname Hpath.
  unfold upload_file_hash_last. cbv zeta.
  do 15 run_step.
  match goal with
  | |- context [DataBytes ?b] =>
      replace b
        with (single_body (w_time w t) name_bytes path_bytes file_content)
  end.
  - unfold bind, requests_post, send, print, ret, single_request, files_url,
      uploading_line.
    rewrite requests_of_app. cbn [requests_of flat_map app].
    rewrite app_nil_r.
    destruct (w_send w (requests_of t) _) as [r|e];
      repeat rewrite <- app_assoc; reflexivity.
  - unfold single_body, build_multipart, single_parts, encode_part, closing,
      part_headers, part_payload, hash_bytes, disposition, octet_stream.
    cbn [flat_map]. repeat rewrite <- app_assoc. reflexivity.
Qed.

(** C5. Once the file is read and the names encode, the boolean
    [upload_file_hash_last] returns is the test "status 201 or status 200"
    on the answer to its request: [True] exactly for 200 and 201, [False]
    for every other status. *)
Theorem upload_true_iff_200_or_201 (token import_id : json)
    (file_path remote_path : pystr) (file_content name_bytes path_bytes : bytes)
    (w : world) (t : trace) (r : response) :
  w_fs w file_path = Some (FsFile file_content) ->
  encode (basename file_path) = Some name_bytes ->
  encode remote_path = Some path_bytes ->
  w_send w (requests_of t)
    (single_request w t token import_id name_bytes path_bytes file_content)
  = Return r ->
  let result := fst (upload_file_hash_last token import_id file_path
                       remote_path w t) in
  (result = Return true <-> status_code r = 200%Z \/ status_code r = 201%Z) /\
  (result = Return false <-> status_code r <> 200%Z /\ status_code r <> 201%Z).
Proof.
  intros Hfs Hname Hpath Hr result. subst result.
  rewrite (upload_file_hash_last_run _ _ _ _ _ _ _ _ _ Hfs Hname Hpath).
  cbv zeta. rewrite Hr. cbn [fst].
  destruct (Z.eqb_spec (status_code r) 201), (Z.eqb_spec (status_code r) 200);
    cbn [orb]; split; split; intros H;
    try discriminate; try lia; try reflexivity;
    try (destruct H; congruence).
Qed.

Lemma upload_true_iff_200_or_201_witness :
  fst (upload_file_hash_last (JStr (lit "tok")) (JStr (lit "999"))
         (lit "/root/sdcard2/id.json") (lit "/") w_created [])
  = Return true.
Proof.
  apply (upload_true_iff_200_or_201 (JStr (lit "tok")) (JStr (lit "999"))
           (lit "/root/sdcard2/id.json") (lit "/")
           (blit "0123456789") (blit "id.json") (blit "/") w_created []
           created).
  - reflexivity.
  - reflexivity.
  - reflexivity.
  - reflexivity.
  - right. reflexivity.
Defined.

(** ** Where the parts lie in a built body *)

Lemma part_offsets_locate (boundary : bytes) (parts : list part) :
  forall (pre tail : bytes) (i : nat) (p : part) (o : nat),
    nth_error parts i = Some p ->
    nth_error (part_offsets boundary parts (length pre)) i
    = Some (part_name p, o) ->
    exists rest,
      skipn o (pre ++ flat_map (encode_part boundary) parts ++ tail)
      = encode_part boundary p ++ rest.
Proof.
  induction parts as [|p0 ps IH]; intros pre tail i p o Hp Ho.
  - destruct i; discriminate.
  - destruct i as [|i]; cbn in Hp, Ho.
    + injection Hp as <-. injection Ho as <-.
      exists (flat_map (encode_part boundary) ps ++ tail).
      rewrite skipn_app, skipn_all, Nat.sub_diag. cbn [flat_map skipn app].
      now rewrite <- app_assoc.
    + rewrite <- length_app in Ho.
      destruct (IH (pre ++ encode_part boundary p0) tail i p o Hp Ho)
        as (rest & E).
      exists rest. rewrite <- E. cbn [flat_map].
      now rewrite <- !app_assoc.
Qed.

Lemma encode_part_length (boundary : bytes) (p : part) :
  (0 < length (encode_part boundary p))%nat.
Proof.
  unfold encode_part. rewrite length_app.
  change (length (blit "--")) with 2%nat. lia.
Qed.

(** C4. The body [upload_file_hash_last] posts is the multipart body of
    the parts name, path, file, content_hash in this order; each part
    starts at its offset, and the offsets grow strictly, so content_hash
    starts after the name, the path and the file part. *)
Theorem single_upload_part_order (token import_id : json)
    (file_path remote_path : pystr) (file_content name_bytes path_bytes : bytes)
    (w : world) (t : trace) :
  w_fs w file_path = Some (FsFile file_content) ->
  encode (basename file_path) = Some name_bytes ->
  encode remote_path = Some path_bytes ->
  let boundary := test_boundary (w_time w t) in
  let parts := single_parts name_bytes path_bytes file_content
                 (hash_bytes file_content name_bytes) in
  let body := build_multipart boundary parts in
  (exists q,
     requests_of (snd (upload_file_hash_last token import_id file_path
                         remote_path w t)) = requests_of t ++ [q]
     /\ rq_data q = Some (DataBytes body)) /\
  body = encode_part boundary (Field (blit "name") name_bytes)
         ++ encode_part boundary (Field (blit "path") path_bytes)
         ++ encode_part boundary
              (FilePart (blit "file") name_bytes
                 (Some (blit "application/octet-stream")) file_content)
         ++ encode_part boundary
              (Field (blit "content_hash") (hash_bytes file_content name_bytes))
         ++ closing boundary /\
  exists o_name o_path o_file o_hash,
    part_offsets boundary parts 0
    = [(blit "name", o_name); (blit "path", o_path); (blit "file", o_file);
       (blit "content_hash", o_hash)] /\
    (o_name < o_path < o_file)%nat /\ (o_file < o_hash)%nat /\
    forall i p o,
      nth_error parts i = Some p ->
      nth_error (part_offsets boundary parts 0) i = Some (part_name p, o) ->
      exists rest, skipn o body = encode_part boundary p ++ rest.
Proof.
  intros Hfs Hname Hpath boundary parts body. split; [|split].
  - exists (single_request w t token import_id name_bytes path_bytes file_content).
    rewrite (upload_file_hash_last_run _ _ _ _ _ _ _ _ _ Hfs Hname Hpath).
    cbv zeta. split; [|reflexivity].
    destruct (w_send w (requests_of t) _); cbn [snd];
      rewrite !requests_of_app; cbn; now rewrite ?app_nil_r.
  - unfold body, build_multipart, parts, single_parts. cbn [flat_map].
    now rewrite <- !app_assoc.
  - unfold parts, single_parts. cbn [part_offsets part_name].
    do 4 eexists. split; [reflexivity|].
    pose proof (encode_part_length boundary (Field (blit "name") name_bytes)).
    pose proof (encode_part_length boundary (Field (blit "path") path_bytes)).
    pose proof (encode_part_length boundary
                  (FilePart (blit "file") name_bytes
                     (Some (blit "application/octet-stream")) file_content)).
    split; [lia|]. split; [lia|].
    intros i p o Hp Ho.
    apply (part_offsets_locate boundary _ [] (closing boundary) i p o Hp Ho).
Qed.

Lemma single_upload_part_order_witness :
  exists o_name o_path o_file o_hash,
    part_offsets (test_boundary 1700000000)
      (single_parts (blit "id.json") (blit "/") (blit "0123456789")
         (hash_bytes (blit "0123456789") (blit "id.json"))) 0
    = [(blit "name", o_name); (blit "path", o_path); (blit "file", o_file);
       (blit "content_hash", o_hash)] /\
    (o_name < o_path < o_file)%nat /\ (o_file < o_hash)%nat.
Proof.
  destruct (single_upload_part_order (JStr (lit "tok")) (JStr (lit "999"))
              (lit "/root/sdcard2/id.json") (lit "/")
              (blit "0123456789") (blit "id.json") (blit "/") w_created []
              eq_refl eq_refl eq_refl)
    as (_ & _ & o1 & o2 & o3 & o4 & E & H1 & H2 & _).
  exists o1, o2, o3, o4. repeat split; try exact E; lia.
Defined.

(** ** The content hash *)

Lemma le_bytes_length (k : nat) (x : N) : length (MD5.le_bytes k x) = k.
Proof. revert x. induction k; intros x; cbn; [reflexivity | now rewrite IHk]. Qed.

Lemma md5_length (data : bytes) : length (md5 data) = 16%nat.
Proof.
  unfold md5, MD5.digest. cbv zeta.
  rewrite !length_app, !le_bytes_length. reflexivity.
Qed.

Lemma unhex_pair (b : byte) (rest : pystr) :
  unhex (hex_pair b ++ rest) = option_map (cons b) (unhex rest).
Proof. destruct b; reflexivity. Qed.

Lemma unhex_hexdigest (d : bytes) : unhex (hexdigest d) = Some d.
Proof.
  induction d as [|b d IH]; [reflexivity|].
  unfold hexdigest in *. cbn [flat_map]. now rewrite unhex_pair, IH.
Qed.

(** C1. For a file name that has a UTF-8 encoding, the content hash is the
    lowercase hexadecimal writing of the 16-byte MD5 digest of the file
    bytes followed by the encoded name; it is the same in every world and
    at every point of a run, and leaves the trace as it was. *)
Theorem content_hash_is_md5_hex (file_content : bytes) (file_name : pystr)
    (name_bytes : bytes) :
  encode file_name = Some name_bytes ->
  let digest := md5 (file_content ++ name_bytes) in
  length digest = 16%nat /\
  exists h,
    unhex h = Some digest /\ length h = 32%nat /\
    forall w t, content_hash file_content file_name w t = (Return h, t).
Proof.
  intros E digest. split; [apply md5_length|].
  exists (hexdigest digest). split; [apply unhex_hexdigest|]. split.
  - unfold hexdigest. generalize (md5_length (file_content ++ name_bytes)).
    fold digest. generalize digest. intros d.
    assert (G : forall l : bytes, length (flat_map hex_pair l) = (2 * length l)%nat).
    { induction l as [|b l IH]; [reflexivity|]. cbn [flat_map length hex_pair app].
      rewrite IH. lia. }
    intros Hd. rewrite G, Hd. reflexivity.
  - intros w t. now apply content_hash_run.
Qed.

Lemma content_hash_is_md5_hex_witness :
  exists h,
    unhex h = Some (md5 (blit "0123456789" ++ blit "id.json")) /\
    length h = 32%nat /\
    forall w t, content_hash (blit "0123456789") (lit "id.json") w t
                = (Return h, t).
Proof.
  exact (proj2 (content_hash_is_md5_hex (blit "0123456789") (lit "id.json")
                  (blit "id.json") eq_refl)).
Defined.

(** C9. Two inputs whose file bytes followed by the encoded name give the
    same byte string have the same content hash, always; and such inputs
    exist that differ: the bytes [ab] under the name [c], the byte [a]
    under the name [bc]. *)
Theorem content_hash_not_injective :
  (forall b1 n1 e1 b2 n2 e2 w t,
     encode n1 = Some e1 -> encode n2 = Some e2 ->
     b1 ++ e1 = b2 ++ e2 ->
     content_hash b1 n1 w t = content_hash b2 n2 w t) /\
  (exists b1 n1 e1 b2 n2 e2,
     (b1, n1) <> (b2, n2) /\
     encode n1 = Some e1 /\ encode n2 = Some e2 /\ b1 ++ e1 = b2 ++ e2).
Proof.
  split.
  - intros b1 n1 e1 b2 n2 e2 w t E1 E2 E.
    rewrite (content_hash_run b1 n1 e1 w t E1).
    rewrite (content_hash_run b2 n2 e2 w t E2). now rewrite E.
  - exists (blit "ab"), (lit "c"), (blit "c"), (blit "a"), (lit "bc"), (blit "bc").
    repeat split; try reflexivity. discriminate.
Qed.

Lemma content_hash_not_injective_witness :
  content_hash (blit "ab") (lit "c") w_created []
  = content_hash (blit "a") (lit "bc") w_created [].
Proof.
  apply (proj1 content_hash_not_injective
           (blit "ab") (lit "c") (blit "c") (blit "a") (lit "bc") (blit "bc"));
    reflexivity.
Defined.

(** ** Runs of the batch upload *)

Lemma upload_batch_loop_run (w : world) (t : trace) (boundary : pystr)
    (bb : bytes) (file_paths : list pystr) (files : list (bytes * bytes)) :
  encode boundary = Some bb ->
  Forall2 (read_as w) file_paths files ->
  forall body,
    upload_batch_loop boundary file_paths body w t
    = (Return (body ++ flat_map (encode_part bb) (flat_map triple_of files)), t).
Proof.
  intros Hb HF. induction HF as [|file_path [nb content] paths fs [Hn Hf] HF IH];
    intros body.
  - cbn. unfold ret. now rewrite app_nil_r.
  - cbn [fst snd] in Hn, Hf. cbn [upload_batch_loop]. cbv zeta.
    do 8 run_step.
    rewrite IH. cbn [flat_map]. rewrite flat_map_app.
    unfold triple_of at 2, batch_triple. cbn [flat_map fst snd].
    unfold encode_part, part_headers, part_payload, hash_bytes, disposition,
      octet_stream.
    repeat rewrite <- app_assoc. reflexivity.
Qed.

Lemma upload_batch_run (token import_id : json) (file_paths : list pystr)
    (remote_path : pystr) (files : list (bytes * bytes)) (path_bytes : bytes)
    (w : world) (t : trace) :
  Forall2 (read_as w) file_paths files ->
  encode remote_path = Some path_bytes ->
  upload_batch token import_id file_paths remote_path w t =
  let q := batch_request w t token import_id files path_bytes in
  let t1 := t ++ [Printed (attempting_line (length file_paths)); Sent q] in
  match w_send w (requests_of t) q with
  | Raised e => (Raised e, t1)
  | Return r =>
      (Return tt,
       t1 ++ [Printed (lit "Batch Status: " ++ str_of_Z (status_code r));
              Printed (lit "Batch Body: " ++ text r)])
  end.
Proof.
  intros HF Hpath. unfold upload_batch. cbv zeta.
  do 4 run_step.
  erewrite bind_run;
    [| apply (upload_batch_loop_run w _ _ (batch_boundary (w_time w t)) _ files);
       [unfold batch_boundary; encode_solve | exact HF]].
  cbv beta zeta.
  do 3 run_step.
  match goal with
  | |- context [DataBytes ?b] =>
      replace b
        with (build_multipart (batch_boundary (w_time w t))
                (batch_parts files path_bytes))
  end.
  - unfold bind, requests_post, send, print, ret, batch_request, files_url,
      attempting_line.
    rewrite requests_of_app. cbn [requests_of flat_map app].
    rewrite app_nil_r.
    destruct (w_send w (requests_of t) _) as [r|e];
      repeat rewrite <- app_assoc; reflexivity.
  - unfold build_multipart, batch_parts, closing. rewrite flat_map_app.
    cbn [flat_map]. unfold encode_part at 2, part_headers, part_payload,
      disposition, batch_boundary.
    cbn [app]. repeat rewrite <- app_assoc. reflexivity.
Qed.

Lemma count_named_app (name : bytes) (a b : list part) :
  count_named name (a ++ b) = (count_named name a + count_named name b)%nat.
Proof. unfold count_named. now rewrite filter_app, length_app. Qed.

Lemma count_named_triples (files : list (bytes * bytes)) :
  count_named (blit "name[]") (flat_map triple_of files) = length files /\
  count_named (blit "content_hash[]") (flat_map triple_of files) = length files /\
  count_named (blit "file[]") (flat_map triple_of files) = length files /\
  count_named (blit "path") (flat_map triple_of files) = 0%nat.
Proof.
  induction files as [|f files (IH1 & IH2 & IH3 & IH4)].
  - repeat split.
  - cbn [flat_map length]. rewrite !count_named_app, IH1, IH2, IH3, IH4.
    repeat split.
Qed.

(** C6. The body [upload_batch] posts holds, for each input file in turn,
    a name[] part, a content_hash[] part and a file[] part, then one path
    part, then the closing line: as many name[], content_hash[] and file[]
    parts as input files, exactly one path part, and the path part after
    all the others. *)
Theorem batch_payload_shape (token import_id : json) (file_paths : list pystr)
    (remote_path : pystr) (files : list (bytes * bytes)) (path_bytes : bytes)
    (w : world) (t : trace) :
  Forall2 (read_as w) file_paths files ->
  encode remote_path = Some path_bytes ->
  let boundary := batch_boundary (w_time w t) in
  let parts := batch_parts files path_bytes in
  (exists q,
     requests_of (snd (upload_batch token import_id file_paths remote_path
                         w t)) = requests_of t ++ [q]
     /\ rq_data q = Some (DataBytes (build_multipart boundary parts))) /\
  build_multipart boundary parts
  = flat_map
      (fun f =>
         encode_part boundary (Field (blit "name[]") (fst f))
         ++ encode_part boundary
              (Field (blit "content_hash[]") (hash_bytes (snd f) (fst f)))
         ++ encode_part boundary
              (FilePart (blit "file[]") (fst f)
                 (Some (blit "application/octet-stream")) (snd f)))
      files
    ++ encode_part boundary (Field (blit "path") path_bytes)
    ++ closing boundary /\
  count_named (blit "name[]") parts = length file_paths /\
  count_named (blit "content_hash[]") parts = length file_paths /\
  count_named (blit "file[]") parts = length file_paths /\
  count_named (blit "path") parts = 1%nat /\
  exists before,
    parts = before ++ [Field (blit "path") path_bytes] /\
    count_named (blit "path") before = 0%nat.
Proof.
  intros HF Hpath boundary parts.
  destruct (count_named_triples files) as (C1 & C2 & C3 & C4).
  pose proof HF as HL. apply Forall2_length in HL.
  split; [|split].
  - exists (batch_request w t token import_id files path_bytes).
    rewrite (upload_batch_run _ _ _ _ _ _ _ _ HF Hpath).
    cbv zeta. split; [|reflexivity].
    destruct (w_send w (requests_of t) _); cbn [snd];
      rewrite !requests_of_app; cbn; now rewrite ?app_nil_r.
  - unfold build_multipart, parts, batch_parts. rewrite flat_map_app.
    cbn [flat_map]. rewrite app_nil_r, <- app_assoc. f_equal.
    clear. induction files as [|f files IH]; [reflexivity|].
    cbn [flat_map]. rewrite flat_map_app, IH.
    unfold triple_of at 1, batch_triple. cbn [flat_map].
    now rewrite app_nil_r, <- !app_assoc.
  - unfold parts, batch_parts. rewrite !count_named_app, C1, C2, C3, C4, HL.
    change (count_named (blit "name[]") [Field (blit "path") path_bytes])
      with 0%nat.
    change (count_named (blit "content_hash[]") [Field (blit "path") path_bytes])
      with 0%nat.
    change (count_named (blit "file[]") [Field (blit "path") path_bytes])
      with 0%nat.
    change (count_named (blit "path") [Field (blit "path") path_bytes])
      with 1%nat.
    do 4 (split; [lia|]).
    exists (flat_map triple_of files). split; [reflexivity | exact C4].
Qed.

Lemma batch_payload_shape_witness :
  let parts := batch_parts [(blit "id.json", blit "0123456789");
                            (blit "id.crc", blit "crc!")] (blit "/") in
  count_named (blit "name[]") parts = 2%nat /\
  count_named (blit "content_hash[]") parts = 2%nat /\
  count_named (blit "file[]") parts = 2%nat /\
  count_named (blit "path") parts = 1%nat /\
  exists before,
    parts = before ++ [Field (blit "path") (blit "/")] /\
    count_named (blit "path") before = 0%nat.
Proof.
  refine (proj2 (proj2
    (batch_payload_shape (JStr (lit "tok")) (JStr (lit "999"))
       [lit "/root/sdcard2/id.json"; lit "/root/sdcard2/id.crc"] (lit "/")
       [(blit "id.json", blit "0123456789"); (blit "id.crc", blit "crc!")]
       (blit "/") w_created [] _ eq_refl))).
  repeat constructor.
Defined.

(** ** Decoding what the builder wrote *)

(** The framing on a body with a preamble, padding after the boundary, a
    boundary that does not fill its line, a part without header lines and
    an epilogue: two parts. *)
Example frame_reads_delimiter_lines :
  frame (blit "XyZ")
    (blit "preamble" ++ CRLF
       ++ blit "--XyZ" ++ [x20; x09] ++ CRLF
       ++ blit "H: v" ++ CRLF ++ CRLF
       ++ blit "abc" ++ CRLF ++ blit "--XyZxyz" ++ CRLF
       ++ blit "--XyZ" ++ CRLF
       ++ CRLF ++ CRLF
       ++ blit "--XyZ-- " ++ CRLF ++ blit "epilogue")
  = Some [([blit "H: v"], blit "abc" ++ CRLF ++ blit "--XyZxyz"); ([], [])].
Proof. vm_compute. reflexivity. Qed.

Lemma strip_prefix_app (p r : bytes) : strip_prefix p (p ++ r) = Some r.
Proof.
  induction p as [|a p IH]; [reflexivity|].
  cbn. now rewrite (Byte.byte_dec_lb (x:=a) eq_refl).
Qed.

Lemma strip_prefix_Some (p s r : bytes) :
  strip_prefix p s = Some r -> s = p ++ r.
Proof.
  revert s. induction p as [|a p IH]; intros s H.
  - now injection H as ->.
  - destruct s as [|b s]; [discriminate|]. cbn in H.
    destruct (Byte.eqb a b) eqn:E; [|discriminate].
    apply Byte.byte_dec_bl in E. subst b. cbn. f_equal. now apply IH.
Qed.

Lemma find_sub_eq (needle hay : bytes) :
  find_sub needle hay =
  match strip_prefix needle hay with
  | Some rest => Some ([], rest)
  | None =>
      match hay with
      | [] => None
      | c :: hay' =>
          match find_sub needle hay' with
          | Some (before, rest) => Some (c :: before, rest)
          | None => None
          end
      end
  end.
Proof. destruct hay; reflexivity. Qed.

Lemma find_sub_first (needle x r : bytes) :
  (forall x1 x2, x = x1 ++ x2 -> x2 <> [] ->
                 strip_prefix needle (x2 ++ needle ++ r) = None) ->
  find_sub needle (x ++ needle ++ r) = Some (x, r).
Proof.
  induction x as [|c x IH]; intros H.
  - cbn [app]. now rewrite find_sub_eq, strip_prefix_app.
  - specialize (IH (fun x1 x2 E => H (c :: x1) x2 (f_equal (cons c) E))).
    pose proof (H [] (c :: x) eq_refl ltac:(discriminate)) as H0.
    rewrite find_sub_eq, H0. cbn [app]. now rewrite IH.
Qed.

Lemma occurs_suffix (needle x1 x2 : bytes) :
  occurs needle x2 -> occurs needle (x1 ++ x2).
Proof.
  intros (a & b & ->). exists (x1 ++ a), b. now rewrite <- app_assoc.
Qed.

Lemma no_early_match (c : byte) (tl x1 x2 r : bytes) :
  ~ In c tl -> ~ occurs (c :: tl) (x1 ++ x2) -> x2 <> [] ->
  strip_prefix (c :: tl) (x2 ++ (c :: tl) ++ r) = None.
Proof.
  intros Hc Hocc Hne.
  destruct (strip_prefix (c :: tl) (x2 ++ (c :: tl) ++ r)) as [r'|] eqn:E;
    [|reflexivity].
  exfalso. apply strip_prefix_Some in E.
  destruct x2 as [|y x2]; [contradiction|].
  cbn [app] in E. injection E as -> E.
  apply app_eq_app in E as (z & [(E1 & E2) | (E1 & E2)]).
  - apply Hocc, occurs_suffix. exists [], z. cbn. now rewrite E1.
  - destruct z as [|z0 z].
    + apply Hocc, occurs_suffix. exists [], []. cbn.
      rewrite app_nil_r in *. now subst.
    + cbn in E2. injection E2 as <- _. apply Hc. rewrite E1.
      apply in_or_app. right. now left.
Qed.

Lemma find_sub_unique (c : byte) (tl x r : bytes) :
  ~ In c tl -> ~ occurs (c :: tl) x ->
  find_sub (c :: tl) (x ++ (c :: tl) ++ r) = Some (x, r).
Proof.
  intros Hc Hocc. apply find_sub_first. intros x1 x2 -> Hne.
  now apply (no_early_match c tl x1 x2 r).
Qed.

Lemma occurs_In (b : byte) (x : bytes) : occurs [b] x -> In b x.
Proof. intros (a & r & ->). apply in_or_app. right. now left. Qed.

Lemma occurs_cons_In (b : byte) (tl x : bytes) : occurs (b :: tl) x -> In b x.
Proof. intros (a & r & ->). apply in_or_app. right. now left. Qed.

Lemma occurs_inside (pre needle x : bytes) :
  occurs (pre ++ needle) x -> occurs needle x.
Proof.
  intros (a & r & ->). exists (a ++ pre), r. now rewrite <- !app_assoc.
Qed.

Lemma find_line (line r : bytes) :
  ~ In CR line -> find_sub CRLF (line ++ CRLF ++ r) = Some (line, r).
Proof.
  intros H. apply (find_sub_unique CR [LF]).
  - intros [E|[]]. discriminate.
  - intros Ho. apply H. now apply occurs_cons_In in Ho.
Qed.

Lemma build_multipart_tail (boundary : bytes) (parts : list part) :
  build_multipart boundary parts
  = blit "--" ++ boundary ++ body_tail boundary parts.
Proof.
  unfold build_multipart. induction parts as [|p ps IH].
  - cbn [flat_map body_tail app]. unfold closing. reflexivity.
  - cbn [flat_map body_tail]. rewrite <- app_assoc, IH. unfold encode_part.
    repeat rewrite <- app_assoc. reflexivity.
Qed.

Lemma part_headers_lines (p : part) :
  part_headers p = flat_map (fun l => l ++ CRLF) (header_lines p).
Proof.
  destruct p as [n v | n f [t|] d]; cbn [part_headers header_lines flat_map
    disposition_line]; repeat rewrite <- app_assoc; now rewrite ?app_nil_r.
Qed.

Lemma read_headers_lines (lines : list bytes) (rest : bytes) :
  Forall header_line_ok lines ->
  forall fuel, (length lines < fuel)%nat ->
    read_headers fuel (flat_map (fun l => l ++ CRLF) lines ++ CRLF ++ rest)
    = Some (lines, rest).
Proof.
  induction 1 as [|l ls [Hcr (c & tl & -> & _)] _ IH]; intros fuel Hf;
    destruct fuel as [|fuel]; try (cbn in Hf; lia).
  - cbn [flat_map app read_headers CRLF].
    change (CR :: LF :: rest) with ([] ++ CRLF ++ rest).
    now rewrite (find_line [] rest (fun H => H)).
  - cbn [flat_map]. rewrite <- !app_assoc. cbn [app read_headers].
    change (c :: tl ++ CRLF ++ ?x) with ((c :: tl) ++ CRLF ++ x).
    rewrite (find_line (c :: tl) _ Hcr).
    rewrite IH by (cbn in Hf; lia). reflexivity.
Qed.

Lemma lines_length (lines : list bytes) (rest : bytes) :
  (length lines
   < length (flat_map (fun l => l ++ CRLF) lines ++ CRLF ++ rest))%nat.
Proof.
  induction lines as [|l ls IH]; cbn [flat_map length app].
  - cbn. lia.
  - rewrite <- !app_assoc, !length_app in *. cbn [length CRLF] in *. lia.
Qed.

Lemma In_blit_false (b : byte) (s : string) :
  existsb (Byte.eqb b) (blit s) = false -> ~ In b (blit s).
Proof.
  intros H Hin. assert (E : existsb (Byte.eqb b) (blit s) = true).
  { apply existsb_exists. exists b. split; [exact Hin|].
    now apply Byte.byte_dec_lb. }
  congruence.
Qed.

(** The header lines the builder writes, when names and content type stay
    on their line: no CR inside, and "C" in front. *)
Lemma header_lines_ok (p : part) :
  part_line_safe p -> Forall header_line_ok (header_lines p).
Proof.
  intros H.
  assert (L1 : ~ In CR (blit "Content-Disposition: form-data; name="))
    by (apply In_blit_false; reflexivity).
  assert (L2 : ~ In CR (blit "; filename="))
    by (apply In_blit_false; reflexivity).
  assert (L3 : ~ In CR (blit "Content-Type: "))
    by (apply In_blit_false; reflexivity).
  assert (L4 : ~ In CR [DQ]) by (intros [E|[]]; discriminate).
  assert (S1 : forall r, exists c tl,
             blit "Content-Disposition: form-data; name=" ++ r = c :: tl
             /\ c <> x2d)
    by (intros r; eexists _, _; split; [reflexivity | discriminate]).
  assert (S2 : forall r, exists c tl,
             blit "Content-Type: " ++ r = c :: tl /\ c <> x2d)
    by (intros r; eexists _, _; split; [reflexivity | discriminate]).
  destruct p as [n v | n f ct d]; unfold header_lines, disposition_line;
    cbn [part_line_safe] in H.
  - destruct H as (Hn & _). constructor; [split; [|apply S1] | constructor].
    rewrite !in_app_iff. tauto.
  - destruct H as ((Hn & _) & (Hf & _) & Ht).
    assert (D : ~ In CR (blit "Content-Disposition: form-data; name=" ++ [DQ]
                        ++ n ++ [DQ] ++ blit "; filename=" ++ [DQ] ++ f ++ [DQ]))
      by (rewrite !in_app_iff; tauto).
    constructor; [split; [exact D | apply S1]|].
    destruct ct as [t|]; [|constructor].
    constructor; [split; [|apply S2] | constructor].
    rewrite in_app_iff. destruct Ht as [Ht _]. tauto.
Qed.

(** *** Finding the delimiter *)

Lemma find_delimiter_eq (delimiter hay : bytes) :
  find_delimiter delimiter hay =
  match at_delimiter delimiter hay with
  | Some (close, rest) => Some ([], close, rest)
  | None =>
      match hay with
      | [] => None
      | c :: hay' =>
          match find_delimiter delimiter hay' with
          | Some (before, close, rest) => Some (c :: before, close, rest)
          | None => None
          end
      end
  end.
Proof. destruct hay; reflexivity. Qed.

Lemma find_delimiter_here (delimiter r rest : bytes) (close : bool) :
  delimiter_end r = Some (close, rest) ->
  find_delimiter delimiter (delimiter ++ r) = Some ([], close, rest).
Proof.
  intros E. rewrite find_delimiter_eq. unfold at_delimiter.
  now rewrite strip_prefix_app, E.
Qed.

Lemma prepend_nil (r : option (bytes * bool * bytes)) : prepend [] r = r.
Proof. now destruct r as [[[a c] rest]|]. Qed.

Lemma prepend_app (x y : bytes) (r : option (bytes * bool * bytes)) :
  prepend x (prepend y r) = prepend (x ++ y) r.
Proof. destruct r as [[[a c] rest]|]; cbn; [|reflexivity]. now rewrite app_assoc. Qed.

Lemma find_delimiter_skip (delimiter x s : bytes) :
  (forall x1 x2, x = x1 ++ x2 -> x2 <> [] ->
                 strip_prefix delimiter (x2 ++ s) = None) ->
  find_delimiter delimiter (x ++ s) = prepend x (find_delimiter delimiter s).
Proof.
  induction x as [|c x IH]; intros H.
  - cbn [app]. now rewrite prepend_nil.
  - specialize (IH (fun x1 x2 E => H (c :: x1) x2 (f_equal (cons c) E))).
    pose proof (H [] (c :: x) eq_refl ltac:(discriminate)) as H0.
    rewrite find_delimiter_eq. unfold at_delimiter. rewrite H0.
    cbn [app]. rewrite IH.
    now destruct (find_delimiter delimiter s) as [[[a cl] rest]|].
Qed.

Lemma eqb_CR_false (y : byte) : y <> CR -> Byte.eqb CR y = false.
Proof.
  intros H. destruct (Byte.eqb CR y) eqn:E; [|reflexivity].
  apply Byte.byte_dec_bl in E. congruence.
Qed.

(** No delimiter starts inside a line. *)
Lemma find_delimiter_line (tl l s : bytes) :
  ~ In CR l ->
  find_delimiter (CR :: tl) (l ++ s) = prepend l (find_delimiter (CR :: tl) s).
Proof.
  intros H. apply find_delimiter_skip. intros x1 x2 -> Hne.
  destruct x2 as [|y x2]; [contradiction|]. cbn [app strip_prefix].
  rewrite eqb_CR_false; [reflexivity|].
  intros ->. apply H, in_or_app. right. now left.
Qed.

(** Nor at the end of a line, when the next one does not open with a dash. *)
Lemma find_delimiter_crlf (boundary s : bytes) (c : byte) :
  c <> x2d ->
  find_delimiter (CRLF ++ blit "--" ++ boundary) (CRLF ++ c :: s)
  = prepend CRLF (find_delimiter (CRLF ++ blit "--" ++ boundary) (c :: s)).
Proof.
  intros Hc. apply find_delimiter_skip. intros x1 x2 E Hne.
  assert (D : Byte.eqb x2d c = false).
  { destruct (Byte.eqb x2d c) eqn:Eb; [|reflexivity].
    apply Byte.byte_dec_bl in Eb. congruence. }
  destruct x1 as [|a [|a' x1]].
  - cbn [app] in E. subst x2.
    change (strip_prefix (CR :: LF :: x2d :: x2d :: boundary)
              (CR :: LF :: c :: s) = None).
    cbn [strip_prefix]. change (Byte.eqb CR CR) with true.
    change (Byte.eqb LF LF) with true. cbv iota. now rewrite D.
  - injection E as _ <-. reflexivity.
  - injection E as _ _ E. destruct x1; [|discriminate E].
    cbn in E. now subst x2.
Qed.

Lemma starts_line (lines : list bytes) (s : bytes) :
  Forall header_line_ok lines ->
  exists c r, flat_map (fun l => l ++ CRLF) lines ++ CRLF ++ s = c :: r
              /\ c <> x2d.
Proof.
  intros [|l ls [_ (c & tl & -> & Hc)] _].
  - exists CR, (LF :: s). split; [reflexivity | discriminate].
  - eexists c, _. split; [reflexivity | exact Hc].
Qed.

(** The header lines of a part hold no delimiter. *)
Lemma find_delimiter_headers (boundary : bytes) (lines : list bytes)
    (s : bytes) :
  Forall header_line_ok lines ->
  find_delimiter (CRLF ++ blit "--" ++ boundary)
    (flat_map (fun l => l ++ CRLF) lines ++ CRLF ++ s)
  = prepend (flat_map (fun l => l ++ CRLF) lines)
      (find_delimiter (CRLF ++ blit "--" ++ boundary) (CRLF ++ s)).
Proof.
  induction 1 as [|l ls Hl Hls IH].
  - cbn [flat_map app]. now rewrite prepend_nil.
  - cbn [flat_map]. rewrite <- !app_assoc.
    change (CRLF ++ blit "--" ++ boundary)
      with (CR :: LF :: blit "--" ++ boundary) at 1.
    rewrite (find_delimiter_line _ l _ (proj1 Hl)).
    change (CR :: LF :: blit "--" ++ boundary)
      with (CRLF ++ blit "--" ++ boundary).
    destruct (starts_line ls s Hls) as (c & r & E & Hc).
    rewrite E, (find_delimiter_crlf boundary r c Hc), <- E, IH.
    rewrite !prepend_app. now rewrite <- !app_assoc.
Qed.

Lemma payload_holds_no_delimiter (boundary payload : bytes) :
  ~ occurs boundary payload ->
  ~ occurs (CRLF ++ blit "--" ++ boundary) (CRLF ++ payload).
Proof.
  intros H (before & rest & E). apply H.
  destruct before as [|a [|a' before]].
  - injection E as E. exists (blit "--"), rest. now rewrite E.
  - discriminate E.
  - injection E as _ _ E.
    exists (before ++ CRLF ++ blit "--"), rest. rewrite E.
    now rewrite <- !app_assoc.
Qed.

(** The payload ends at the delimiter the builder wrote. *)
Lemma find_delimiter_payload (boundary payload r rest : bytes) (close : bool) :
  ~ In CR boundary ->
  ~ occurs boundary payload ->
  delimiter_end r = Some (close, rest) ->
  find_delimiter (CRLF ++ blit "--" ++ boundary)
    (CRLF ++ payload ++ (CRLF ++ blit "--" ++ boundary) ++ r)
  = Some (CRLF ++ payload, close, rest).
Proof.
  intros Hb Ho E. rewrite (app_assoc CRLF payload).
  rewrite find_delimiter_skip.
  - rewrite (find_delimiter_here _ r rest close E). cbn [prepend].
    now rewrite app_nil_r.
  - intros x1 x2 Ex Hne.
    apply (no_early_match CR (LF :: blit "--" ++ boundary) x1 x2 r).
    + intros [E'|H]; [discriminate|].
      apply in_app_or in H as [H|H]; [|contradiction].
      revert H. apply In_blit_false. reflexivity.
    + rewrite <- Ex. now apply payload_holds_no_delimiter.
    + exact Hne.
Qed.

Lemma find_delimiter_part (boundary : bytes) (p : part) (r rest : bytes)
    (close : bool) :
  ~ In CR boundary ->
  part_decodable boundary p ->
  delimiter_end r = Some (close, rest) ->
  find_delimiter (CRLF ++ blit "--" ++ boundary)
    (part_headers p ++ CRLF ++ part_payload p
       ++ (CRLF ++ blit "--" ++ boundary) ++ r)
  = Some (part_headers p ++ CRLF ++ part_payload p, close, rest).
Proof.
  intros Hb Hp E. rewrite part_headers_lines.
  rewrite (find_delimiter_headers boundary _ _ (header_lines_ok p (proj2 Hp))).
  rewrite (find_delimiter_payload boundary _ r rest close Hb (proj1 Hp) E).
  reflexivity.
Qed.

Lemma read_part_built (p : part) (boundary : bytes) :
  part_decodable boundary p ->
  read_part (part_headers p ++ CRLF ++ part_payload p) = Some (framed p).
Proof.
  intros Hp. unfold read_part. rewrite part_headers_lines.
  apply read_headers_lines; [apply (header_lines_ok p), Hp|].
  pose proof (lines_length (header_lines p) (part_payload p)). lia.
Qed.

Lemma split_parts_built (boundary : bytes) (ps : list part) :
  ~ In CR boundary ->
  Forall (part_decodable boundary) ps ->
  forall p fuel,
    part_decodable boundary p -> (length ps < fuel)%nat ->
    split_parts fuel (CRLF ++ blit "--" ++ boundary)
      (part_headers p ++ CRLF ++ part_payload p
         ++ (CRLF ++ blit "--" ++ boundary) ++ body_tail boundary ps)
    = Some (map framed (p :: ps)).
Proof.
  intros Hb. induction 1 as [|p' ps Hp' _ IH]; intros p fuel Hp Hf;
    (destruct fuel as [|fuel]; [cbn in Hf; lia|]);
    cbn [split_parts].
  - rewrite (find_delimiter_part boundary p (body_tail boundary []) [] true
               Hb Hp eq_refl).
    now rewrite (read_part_built p boundary Hp).
  - rewrite (find_delimiter_part boundary p
               (body_tail boundary (p' :: ps))
               (part_headers p' ++ CRLF ++ part_payload p'
                  ++ (CRLF ++ blit "--" ++ boundary) ++ body_tail boundary ps)
               false Hb Hp eq_refl).
    rewrite (read_part_built p boundary Hp).
    rewrite (IH p' fuel Hp') by (cbn in Hf; lia). reflexivity.
Qed.

Lemma build_multipart_length (boundary : bytes) (parts : list part) :
  (length parts < length (build_multipart boundary parts))%nat.
Proof.
  unfold build_multipart. induction parts as [|p ps IH].
  - cbn [flat_map app length]. unfold closing. rewrite length_app.
    change (length (blit "--")) with 2%nat. lia.
  - cbn [flat_map length]. rewrite <- app_assoc, length_app.
    pose proof (encode_part_length boundary p). lia.
Qed.

Lemma frame_build (boundary : bytes) (parts : list part) :
  ~ In CR boundary ->
  Forall (part_decodable boundary) parts ->
  frame boundary (build_multipart boundary parts) = Some (map framed parts).
Proof.
  intros Hb Hp. unfold frame.
  pose proof (build_multipart_length boundary parts) as L.
  rewrite build_multipart_tail in *.
  replace (CRLF ++ blit "--" ++ boundary ++ body_tail boundary parts)
    with ((CRLF ++ blit "--" ++ boundary) ++ body_tail boundary parts)
    by now rewrite <- !app_assoc.
  destruct Hp as [|p ps Hp Hps].
  - now rewrite (find_delimiter_here _ (body_tail boundary []) [] true
                   eq_refl).
  - rewrite (find_delimiter_here _ (body_tail boundary (p :: ps))
               (part_headers p ++ CRLF ++ part_payload p
                  ++ (CRLF ++ blit "--" ++ boundary) ++ body_tail boundary ps)
               false eq_refl).
    apply split_parts_built; try assumption. cbn [length] in L. lia.
Qed.

Lemma rfc_boundary_no_cr (boundary : bytes) :
  rfc_boundary boundary = true -> ~ In CR boundary.
Proof.
  unfold rfc_boundary. intros H Hin.
  apply andb_true_iff in H as [H _]. apply andb_true_iff in H as [H _].
  apply andb_true_iff in H as [H _].
  rewrite forallb_forall in H. specialize (H CR Hin). discriminate H.
Qed.


Lemma find_sub_complete (needle hay : bytes) :
  occurs needle hay -> find_sub needle hay <> None.
Proof.
  intros (a & r & ->). induction a as [|c a IH]; rewrite find_sub_eq.
  - cbn [app]. now rewrite strip_prefix_app.
  - destruct (strip_prefix needle _); [discriminate|].
    cbn [app]. destruct (find_sub needle (a ++ needle ++ r)) as [[]|];
      [discriminate | contradiction].
Qed.

Lemma not_occurs (needle hay : bytes) :
  find_sub needle hay = None -> ~ occurs needle hay.
Proof. intros E Ho. now apply (find_sub_complete needle hay Ho). Qed.

Lemma not_In (b : byte) (l : bytes) :
  existsb (Byte.eqb b) l = false -> ~ In b l.
Proof.
  intros H Hin. assert (E : existsb (Byte.eqb b) l = true).
  { apply existsb_exists. exists b. split; [exact Hin|].
    now apply Byte.byte_dec_lb. }
  congruence.
Qed.



(** ** The scenarios of the design, run *)

(** Scenario A: the four requests of a successful run, in order, and the
    parts of the upload; the batch is skipped, one of its files missing. *)
Example scenario_a_requests :
  fst (main w_scenario_a []) = Return tt /\
  map (fun q => (rq_method q, rq_url q)) (requests_of (snd (main w_scenario_a [])))
  = [(POST, lit "https://sleephq.com/oauth/token");
     (GET, lit "https://sleephq.com/api/v1/me");
     (POST, lit "https://sleephq.com/api/v1/teams/42/imports");
     (POST, lit "https://sleephq.com/api/v1/imports/999/files")] /\
  option_map rq_data (nth_error (requests_of (snd (main w_scenario_a []))) 3)
  = Some (Some (DataBytes
       (single_body 1700000000 (blit "Identification.json") (blit "/")
          (blit "0123456789")))) /\
  last (printed_of (snd (main w_scenario_a []))) [] = lit "Status: 201".
Proof. vm_compute. repeat split. Qed.

Example scenario_a_hash :
  hash_bytes (blit "0123456789") (blit "id.json")
  = blit "207291efe569075a8ab4e200cfa2d0c4".
Proof. vm_compute. reflexivity. Qed.

(** ** The two bodies of the script decode *)

Lemma dec_bytes_no_cr (z : Z) : ~ In CR (dec_bytes z).
Proof. apply dec_bytes_no. reflexivity. Qed.


Lemma batch_boundary_no_cr (now : Z) : ~ In CR (batch_boundary now).
Proof.
  unfold batch_boundary. intros H. apply in_app_or in H as [H|H].
  - revert H. apply not_In. reflexivity.
  - now apply dec_bytes_no_cr in H.
Qed.

Lemma hash_bytes_no_dash (file_content name_bytes : bytes) :
  ~ In x2d (hash_bytes file_content name_bytes).
Proof.
  unfold hash_bytes, hexdigest. generalize (md5 (file_content ++ name_bytes)).
  intros d. apply not_In. induction d as [|b d IH]; [reflexivity|].
  cbn [flat_map]. rewrite map_app, existsb_app, IH, orb_false_r.
  destruct b; reflexivity.
Qed.

(** A boundary of the script starts with a dash, a hash holds none. *)
Lemma hash_bytes_free (tl file_content name_bytes : bytes) :
  ~ occurs (x2d :: tl) (hash_bytes file_content name_bytes).
Proof.
  intros H. apply occurs_cons_In in H. now apply hash_bytes_no_dash in H.
Qed.

Lemma literal_safe (s : string) :
  existsb (fun b => Byte.eqb DQ b || Byte.eqb CR b || Byte.eqb LF b) (blit s)
  = false ->
  header_safe (blit s).
Proof.
  intros H. rewrite <- not_true_iff_false, existsb_exists in H.
  repeat split; intros Hin; apply H; eexists; (split; [exact Hin|]);
    reflexivity.
Qed.

(** The body of the single upload decodes to its four parts, each with the
    header lines the script wrote and its value, when the boundary is one
    RFC 2046 allows, the file name holds no CR or LF and the boundary
    occurs neither in the file name, nor in the remote path, nor in the
    file. *)
Theorem single_upload_decodes (now : Z)
    (name_bytes path_bytes file_content : bytes) :
  rfc_boundary (test_boundary now) = true ->
  line_safe name_bytes ->
  ~ occurs (test_boundary now) name_bytes ->
  ~ occurs (test_boundary now) path_bytes ->
  ~ occurs (test_boundary now) file_content ->
  frame (test_boundary now)
    (single_body now name_bytes path_bytes file_content)
  = Some (map framed
            (single_parts name_bytes path_bytes file_content
               (hash_bytes file_content name_bytes))).
Proof.
  intros Hb Hsafe Hn Hp Hc. unfold single_body.
  apply (frame_build _ _ (rfc_boundary_no_cr _ Hb)).
  unfold single_parts.
  repeat constructor; cbn [part_payload];
    try assumption; try apply Hsafe;
    try (apply not_In; reflexivity).
  apply (hash_bytes_free (blit "---TestBoundary" ++ dec_bytes now)).
Qed.

Lemma triples_decodable (boundary_tail : bytes) (files : list (bytes * bytes)) :
  Forall (fun f => line_safe (fst f)
                   /\ ~ occurs (x2d :: boundary_tail) (fst f)
                   /\ ~ occurs (x2d :: boundary_tail) (snd f)) files ->
  Forall (part_decodable (x2d :: boundary_tail)) (flat_map triple_of files).
Proof.
  induction 1 as [|[nb content] files (Hs & Hn & Hc) _ IH]; [constructor|].
  cbn [flat_map fst snd] in *. apply Forall_app. split; [|exact IH].
  unfold triple_of, batch_triple. cbn [fst snd].
  repeat constructor; cbn [part_payload];
    try assumption; try apply Hs;
    try (apply not_In; reflexivity).
  apply hash_bytes_free.
Qed.

(** X23. The body of the batch upload decodes to its parts, each with the
    header lines the script wrote and its value: one name[],
    content_hash[], file[] triple per file in order, then the path field.
    This holds when the boundary is one RFC 2046 allows, no file name
    holds a CR or an LF and the boundary occurs in no file name, in no
    file and not in the remote path. *)
Theorem batch_upload_decodes (now : Z) (files : list (bytes * bytes))
    (path_bytes : bytes) :
  rfc_boundary (batch_boundary now) = true ->
  Forall (fun f => line_safe (fst f)
                   /\ ~ occurs (batch_boundary now) (fst f)
                   /\ ~ occurs (batch_boundary now) (snd f)) files ->
  ~ occurs (batch_boundary now) path_bytes ->
  frame (batch_boundary now)
    (build_multipart (batch_boundary now) (batch_parts files path_bytes))
  = Some (map framed (batch_parts files path_bytes)).
Proof.
  intros Hb Hf Hp. apply (frame_build _ _ (rfc_boundary_no_cr _ Hb)).
  unfold batch_parts. apply Forall_app. split.
  - apply (triples_decodable (blit "---BatchBoundary" ++ dec_bytes now)).
    exact Hf.
  - repeat constructor; cbn [part_payload]; try assumption;
      try (apply not_In; reflexivity).
Qed.

(** * Further properties of the script *)

(** ** The authenticator in every world *)

(** X1. Whatever the server answers or raises, [get_token] sends at least
    one and at most three requests, and they are the attempts in their
    order, without a gap or a repeat. *)
Theorem get_token_sends_prefix (w : world) (t : trace) :
  exists k, (1 <= k <= 3)%nat /\
    requests_of (snd (get_token w t)) = requests_of t ++ firstn k attempts.
Proof.
  rewrite get_token_run. cbv zeta.
  destruct (w_send w (requests_of t) _) as [r1|e];
    [destruct (status_code r1 =? 200)%Z|];
    try (exists 1%nat; split; [lia|]; cbn [snd];
         rewrite requests_of_app; reflexivity).
  destruct (w_send w (requests_of t ++ _) (token_request (Some (lit "api"))))
    as [r2|e];
    [destruct (status_code r2 =? 200)%Z|];
    try (exists 2%nat; split; [lia|]; cbn [snd];
         rewrite !requests_of_app; cbn; now rewrite <- app_assoc).
  destruct (w_send w (requests_of t ++ _) (token_request None)) as [r3|e];
    [destruct (status_code r3 =? 200)%Z|];
    exists 3%nat; (split; [lia|]); cbn [snd];
    rewrite !requests_of_app; cbn; now rewrite <- !app_assoc, ?app_nil_r.
Qed.

Lemma get_token_success_run (w : world) (t : trace) (k : nat)
    (q : request) (r : response) :
  nth_error attempts k = Some q ->
  rejected w (requests_of t) k ->
  w_send w (requests_of t ++ firstn k attempts) q = Return r ->
  status_code r = 200%Z ->
  exists t', get_token w t = (access_token_of r, t') /\
             requests_of t' = requests_of t ++ firstn (S k) attempts.
Proof.
  intros Hq Hrej Hr Hs.
  assert (E200 : (status_code r =? 200)%Z = true) by now apply Z.eqb_eq.
  rewrite get_token_run. cbv zeta.
  destruct k as [|[|[|[|k]]]]; cbn in Hq; try discriminate;
    [| destruct (Hrej 0%nat _ ltac:(lia) eq_refl) as (r1 & E1 & N1)
     | destruct (Hrej 0%nat _ ltac:(lia) eq_refl) as (r1 & E1 & N1);
       destruct (Hrej 1%nat _ ltac:(lia) eq_refl) as (r2 & E2 & N2) ];
    injection Hq as <-; cbn [firstn attempts] in *;
    rewrite ?app_nil_r in *;
    repeat match goal with
           | N : status_code _ <> 200%Z |- _ => apply Z.eqb_neq in N
           end.
  - rewrite Hr, E200. eexists. split; [reflexivity|].
    rewrite requests_of_app. reflexivity.
  - rewrite E1, N1, Hr, E200. eexists. split; [reflexivity|].
    rewrite !requests_of_app. cbn. now rewrite <- app_assoc.
  - rewrite E1, N1, E2, N2, Hr, E200. eexists. split; [reflexivity|].
    rewrite !requests_of_app. cbn. now rewrite <- !app_assoc.
Qed.

(** X2. A 200 answer ends the run when it carries no usable token: if the
    [access_token] of the first 200 answer is missing or falsy (None, an
    empty string, zero, false), [main] returns with nothing sent beyond
    the token requests; the scopes left are not tried. *)
Theorem main_stops_on_unusable_token (w : world) (t : trace) (k : nat)
    (q : request) (r : response) (token : json) :
  nth_error attempts k = Some q ->
  rejected w (requests_of t) k ->
  w_send w (requests_of t ++ firstn k attempts) q = Return r ->
  status_code r = 200%Z ->
  access_token_of r = Return token ->
  truthy token = false ->
  fst (main w t) = Return tt /\
  requests_of (snd (main w t)) = requests_of t ++ firstn (S k) attempts.
Proof.
  intros Hq Hrej Hr Hs Ha Ht.
  destruct (get_token_success_run w t k q r Hq Hrej Hr Hs) as (t' & E & G).
  unfold main, bind. rewrite E, Ha, Ht. cbn. split; [reflexivity | exact G].
Qed.

Lemma main_stops_on_unusable_token_witness :
  fst (main w_no_team []) = Return tt /\
  requests_of (snd (main w_no_team []))
  = [token_request (Some (lit "read+write"))].
Proof.
  apply (main_stops_on_unusable_token w_no_team [] 0
           (token_request (Some (lit "read+write")))
           (Response 200 (lit "{data: {}}") (Some (JObj [(lit "data", JObj [])])))
           JNull).
  - reflexivity.
  - intros i q Hi. lia.
  - reflexivity.
  - reflexivity.
  - reflexivity.
  - reflexivity.
Defined.

(** ** The session resolver *)

(** X3. On a 200 answer whose JSON object holds [data.current_team_id],
    [get_team_id] returns that value, having sent one GET to [/api/v1/me]
    with the token as bearer. *)
Theorem get_team_id_returns_team (token : json) (w : world) (t : trace)
    (r : response) (m d : list (pystr * json)) (v : json) :
  w_send w (requests_of t) (me_request (format_value w token)) = Return r ->
  status_code r = 200%Z ->
  json_body r = Some (JObj m) ->
  assoc (lit "data") m = Some (JObj d) ->
  assoc (lit "current_team_id") d = Some v ->
  get_team_id token w t
  = (Return v, t ++ [Sent (me_request (format_value w token))]).
Proof.
  intros Hr Hs Hj Hm Hd. rewrite get_team_id_run. cbv zeta.
  rewrite Hr. apply Z.eqb_eq in Hs. rewrite Hs.
  unfold team_id_of. now rewrite Hj, Hm, Hd.
Qed.

Lemma get_team_id_returns_team_witness :
  get_team_id (JStr (lit "tok")) w_scenario_a []
  = (Return (JInt 42), [Sent (me_request (lit "tok"))]).
Proof.
  apply (get_team_id_returns_team (JStr (lit "tok")) w_scenario_a []
           (scenario_a_server (me_request (lit "tok")))
           [(lit "data", JObj [(lit "current_team_id", JInt 42)])]
           [(lit "current_team_id", JInt 42)]);
    reflexivity.
Defined.

(** X4. On any other status [get_team_id] returns [None] and never looks
    at the body: it does not raise, even on a body that is not JSON. *)
Theorem get_team_id_none_on_failure (token : json) (w : world) (t : trace)
    (r : response) :
  w_send w (requests_of t) (me_request (format_value w token)) = Return r ->
  status_code r <> 200%Z ->
  get_team_id token w t
  = (Return JNull, t ++ [Sent (me_request (format_value w token))]).
Proof.
  intros Hr Hs. rewrite get_team_id_run. cbv zeta.
  rewrite Hr. apply Z.eqb_neq in Hs. now rewrite Hs.
Qed.

Lemma get_team_id_none_on_failure_witness :
  get_team_id (JStr (lit "tok")) w_deny []
  = (Return JNull, [Sent (me_request (lit "tok"))]).
Proof.
  apply (get_team_id_none_on_failure (JStr (lit "tok")) w_deny []
           (Response 401 (lit "invalid_scope") None)).
  - reflexivity.
  - discriminate.
Defined.

(** X5. A 200 answer can make [get_team_id] raise: [JSONDecodeError] when
    the body is not JSON, [AttributeError] when the body is JSON but no
    object, or when its [data] member is there but is no object (null,
    a number, a string, a list). *)
Theorem get_team_id_raises_on_200 (token : json) (w : world) (t : trace)
    (r : response) :
  w_send w (requests_of t) (me_request (format_value w token)) = Return r ->
  status_code r = 200%Z ->
  (json_body r = None ->
   fst (get_team_id token w t) = Raised JSONDecodeError) /\
  (forall j, json_body r = Some j -> is_object j = false ->
   fst (get_team_id token w t) = Raised AttributeError) /\
  (forall m d, json_body r = Some (JObj m) ->
   assoc (lit "data") m = Some d -> is_object d = false ->
   fst (get_team_id token w t) = Raised AttributeError).
Proof.
  intros Hr Hs. rewrite get_team_id_run. cbv zeta. cbn [fst].
  rewrite Hr. apply Z.eqb_eq in Hs. rewrite Hs. unfold team_id_of.
  repeat split.
  - intros ->. reflexivity.
  - intros j -> Hj. destruct j; try reflexivity. discriminate.
  - intros m d -> -> Hd. destruct d; try reflexivity. discriminate.
Qed.

Lemma get_team_id_raises_on_200_witness :
  fst (get_team_id (JStr (lit "tok")) w_null_data []) = Raised AttributeError.
Proof.
  refine (proj2 (proj2
    (get_team_id_raises_on_200 (JStr (lit "tok")) w_null_data []
       (Response 200 (lit "{data: null}") (Some (JObj [(lit "data", JNull)])))
       eq_refl eq_refl))
    [(lit "data", JNull)] JNull eq_refl eq_refl eq_refl).
Defined.

(** ** The import session manager *)

Lemma create_import_run (token team_id : json) (w : world) (t : trace) :
  create_import token team_id w t =
  let q := import_request w token team_id in
  let t1 := t ++ [Printed (creating_line w team_id); Sent q] in
  match w_send w (requests_of t) q with
  | Raised e => (Raised e, t1)
  | Return r =>
      if (status_code r =? 201)%Z then (import_id_of r, t1)
      else (Return JNull, t1 ++ [Printed (import_error_line r)])
  end.
Proof.
  unfold create_import, bind, fmt, print, requests_post, send, import_request,
    creating_line, import_error_line. cbv zeta.
  rewrite requests_of_app. cbn [requests_of flat_map]. rewrite app_nil_r.
  rewrite <- app_assoc. cbn [app].
  destruct (w_send w (requests_of t) _) as [r|e]; [|reflexivity].
  destruct (status_code r =? 201)%Z.
  - unfold response_json, import_id_of, dict_get, ret, raise.
    destruct (json_body r) as [[| | | | | |m]|]; try reflexivity.
    destruct (assoc (lit "data") m) as [[]|]; reflexivity.
  - unfold ret. rewrite <- app_assoc. reflexivity.
Qed.

(** X6. [create_import] posts the constant JSON:API document to
    [/api/v1/teams/<team>/imports]; on a 201 answer whose JSON object holds
    [data.id] it returns that id. *)
Theorem create_import_returns_id (token team_id : json) (w : world)
    (t : trace) (r : response) (m d : list (pystr * json)) (v : json) :
  w_send w (requests_of t) (import_request w token team_id) = Return r ->
  status_code r = 201%Z ->
  json_body r = Some (JObj m) ->
  assoc (lit "data") m = Some (JObj d) ->
  assoc (lit "id") d = Some v ->
  create_import token team_id w t
  = (Return v,
     t ++ [Printed (creating_line w team_id);
           Sent (import_request w token team_id)]) /\
  rq_url (import_request w token team_id)
  = BASE_URL ++ lit "/api/v1/teams/" ++ format_value w team_id
      ++ lit "/imports" /\
  rq_data (import_request w token team_id) = Some (DataStr import_payload).
Proof.
  intros Hr Hs Hj Hm Hd. rewrite create_import_run. cbv zeta.
  rewrite Hr. apply Z.eqb_eq in Hs. rewrite Hs.
  unfold import_id_of. rewrite Hj, Hm, Hd. repeat split.
Qed.

Lemma create_import_returns_id_witness :
  fst (create_import (JStr (lit "tok")) (JInt 42) w_scenario_a [])
  = Return (JStr (lit "999")).
Proof.
  refine (f_equal fst (proj1
    (create_import_returns_id (JStr (lit "tok")) (JInt 42) w_scenario_a []
       (scenario_a_server (import_request w_scenario_a (JStr (lit "tok")) (JInt 42)))
       [(lit "data", JObj [(lit "id", JStr (lit "999"))])]
       [(lit "id", JStr (lit "999"))] (JStr (lit "999"))
       eq_refl eq_refl eq_refl eq_refl eq_refl))).
Defined.

(** X7. Only 201 counts for [create_import]: on every other status, 200
    included, it returns [None], prints the status and the body of the
    answer, and does not read the body as JSON. *)
Theorem create_import_none_unless_201 (token team_id : json) (w : world)
    (t : trace) (r : response) :
  w_send w (requests_of t) (import_request w token team_id) = Return r ->
  status_code r <> 201%Z ->
  create_import token team_id w t
  = (Return JNull,
     t ++ [Printed (creating_line w team_id);
           Sent (import_request w token team_id);
           Printed (lit "Create import error: " ++ str_of_Z (status_code r)
                      ++ lit " " ++ text r)]).
Proof.
  intros Hr Hs. rewrite create_import_run. cbv zeta.
  rewrite Hr. apply Z.eqb_neq in Hs. rewrite Hs.
  rewrite <- app_assoc. reflexivity.
Qed.

Lemma create_import_none_unless_201_witness :
  fst (create_import (JStr (lit "tok")) (JInt 42) w_no_team []) = Return JNull.
Proof.
  refine (f_equal fst
    (create_import_none_unless_201 (JStr (lit "tok")) (JInt 42) w_no_team []
       (Response 200 (lit "{data: {}}") (Some (JObj [(lit "data", JObj [])])))
       eq_refl _)).
  discriminate.
Defined.

(** ** The single upload: when nothing is sent *)

(** X8. [upload_file_hash_last] builds the whole body before it sends or
    prints anything: when the path is no readable file it raises the error
    of [open] ([UnicodeEncodeError] for a path the file system encoding
    rejects, else [ValueError] for a path with a null character, else
    [OSError]), when the file name or the remote path has no UTF-8 encoding
    it raises [UnicodeEncodeError], and in each case the trace is left as
    it was. *)
Theorem upload_sends_nothing_unless_ready (token import_id : json)
    (file_path remote_path : pystr) (w : world) (t : trace) :
  ((forall content, w_fs w file_path <> Some (FsFile content)) ->
   upload_file_hash_last token import_id file_path remote_path w t
   = (Raised (open_error file_path), t)) /\
  (forall content,
     w_fs w file_path = Some (FsFile content) ->
     encode (basename file_path) = None ->
     upload_file_hash_last token import_id file_path remote_path w t
     = (Raised UnicodeEncodeError, t)) /\
  (forall content name_bytes,
     w_fs w file_path = Some (FsFile content) ->
     encode (basename file_path) = Some name_bytes ->
     encode remote_path = None ->
     upload_file_hash_last token import_id file_path remote_path w t
     = (Raised UnicodeEncodeError, t)).
Proof.
  repeat split.
  - intros H. unfold upload_file_hash_last, bind, fmt, read_file.
    destruct (w_fs w file_path) as [[c|]|]; try reflexivity.
    now destruct (H c).
  - intros content Hfs Hn. unfold upload_file_hash_last. cbv zeta.
    do 2 run_step.
    unfold content_hash, bind, str_encode. now rewrite Hn.
  - intros content name_bytes Hfs Hn Hp. unfold upload_file_hash_last.
    cbv zeta. do 8 run_step.
    unfold bind at 1. unfold str_encode at 1. now rewrite Hp.
Qed.

Lemma upload_sends_nothing_unless_ready_witness :
  upload_file_hash_last (JStr (lit "tok")) (JStr (lit "999"))
    (lit "/root/sdcard2/missing.bin") (lit "/") w_created []
  = (Raised OSError, []).
Proof.
  apply (proj1 (upload_sends_nothing_unless_ready (JStr (lit "tok"))
                  (JStr (lit "999")) (lit "/root/sdcard2/missing.bin")
                  (lit "/") w_created [])).
  intros content. discriminate.
Defined.

(** ** The single upload: the request *)

Lemma build_multipart_ends (boundary : bytes) (parts : list part) :
  exists before,
    build_multipart boundary parts
    = before ++ blit "--" ++ boundary ++ blit "--" ++ CRLF.
Proof. exists (flat_map (encode_part boundary) parts). reflexivity. Qed.

(** X9. The request of the single upload is consistent: it goes to
    [/api/v1/imports/<import>/files] with the token as bearer, its
    Content-Type header announces a boundary whose bytes are the very
    delimiter of the body, and the body opens with the dash-boundary line
    and closes with the closing line of that boundary. *)
Theorem single_upload_request_shape (token import_id : json)
    (file_path remote_path : pystr) (file_content name_bytes path_bytes : bytes)
    (w : world) (t : trace) :
  w_fs w file_path = Some (FsFile file_content) ->
  encode (basename file_path) = Some name_bytes ->
  encode remote_path = Some path_bytes ->
  exists q boundary body rest before,
    requests_of (snd (upload_file_hash_last token import_id file_path
                        remote_path w t)) = requests_of t ++ [q] /\
    rq_method q = POST /\
    rq_url q = BASE_URL ++ lit "/api/v1/imports/" ++ format_value w import_id
                 ++ lit "/files" /\
    assoc (lit "Authorization") (rq_headers q)
    = Some (lit "Bearer " ++ format_value w token) /\
    assoc (lit "Content-Type") (rq_headers q)
    = Some (lit "multipart/form-data; boundary=" ++ boundary) /\
    encode boundary = Some (test_boundary (w_time w t)) /\
    rq_data q = Some (DataBytes body) /\
    body = blit "--" ++ test_boundary (w_time w t) ++ CRLF ++ rest /\
    body = before ++ blit "--" ++ test_boundary (w_time w t) ++ blit "--"
             ++ CRLF.
Proof.
  intros Hfs Hname Hpath.
  exists (single_request w t token import_id name_bytes path_bytes file_content).
  exists (lit "----TestBoundary" ++ str_of_Z (w_time w t)).
  exists (single_body (w_time w t) name_bytes path_bytes file_content).
  destruct (build_multipart_ends (test_boundary (w_time w t))
              (single_parts name_bytes path_bytes file_content
                 (hash_bytes file_content name_bytes))) as (before & Hb).
  eexists. exists before.
  rewrite (upload_file_hash_last_run _ _ _ _ _ _ _ _ _ Hfs Hname Hpath).
  cbv zeta. repeat split; try reflexivity.
  - destruct (w_send w (requests_of t) _); cbn [snd];
      rewrite !requests_of_app; cbn; now rewrite ?app_nil_r.
  - unfold test_boundary. encode_solve.
  - unfold single_body, build_multipart, single_parts. cbn [flat_map].
    unfold encode_part at 1. rewrite <- !app_assoc. reflexivity.
  - exact Hb.
Qed.

Lemma single_upload_request_shape_witness :
  exists q,
    requests_of (snd (upload_file_hash_last (JStr (lit "tok"))
                        (JStr (lit "999")) (lit "/root/sdcard2/id.json")
                        (lit "/") w_created [])) = [q] /\
    rq_url q = lit "https://sleephq.com/api/v1/imports/999/files".
Proof.
  destruct (single_upload_request_shape (JStr (lit "tok")) (JStr (lit "999"))
              (lit "/root/sdcard2/id.json") (lit "/")
              (blit "0123456789") (blit "id.json") (blit "/") w_created []
              eq_refl eq_refl eq_refl)
    as (q & _ & _ & _ & _ & H1 & _ & H2 & _).
  exists q. split; [exact H1 | exact H2].
Defined.

(** ** The boundary and the hash *)

Lemma boundary_safe (prefix : string) (now : Z) :
  header_safe (blit prefix) -> header_safe (blit prefix ++ dec_bytes now).
Proof.
  intros (H1 & H2 & H3).
  repeat split; intros H; apply in_app_or in H as [H|H]; try tauto;
    revert H; apply dec_bytes_no; reflexivity.
Qed.

(** X10. For every reading of the clock, negative ones included, the
    boundary of either upload holds no double quote, CR or LF, so it can
    stand in the Content-Type header and in a delimiter line. *)
Theorem boundaries_are_header_safe (now : Z) :
  header_safe (test_boundary now) /\ header_safe (batch_boundary now).
Proof.
  split; apply boundary_safe; apply literal_safe; reflexivity.
Qed.

(** X11. The boundary cannot collide with the content hash: the hash is
    made of hexadecimal digits and every boundary of the script starts
    with a dash. *)
Theorem hash_never_holds_boundary (now : Z) (file_content name_bytes : bytes) :
  ~ occurs (test_boundary now) (hash_bytes file_content name_bytes) /\
  ~ occurs (batch_boundary now) (hash_bytes file_content name_bytes).
Proof.
  split.
  - apply (hash_bytes_free (blit "---TestBoundary" ++ dec_bytes now)).
  - apply (hash_bytes_free (blit "---BatchBoundary" ++ dec_bytes now)).
Qed.

(** ** The file name that is sent *)

Lemma basename_no_slash (p : pystr) : existsb (N.eqb slash) (basename p) = false.
Proof.
  induction p as [|c p IH]; [reflexivity|]. cbn [basename].
  destruct (existsb (N.eqb slash) p) eqn:E; [exact IH|].
  destruct (N.eqb_spec c slash) as [->|Hc]; [exact E|].
  cbn [existsb]. rewrite E, orb_false_r. apply N.eqb_neq. congruence.
Qed.

Lemma shiftr_lt (c k b : N) : c < b * 2 ^ k -> N.shiftr c k < b.
Proof.
  intros H. rewrite N.shiftr_div_pow2.
  apply N.Div0.div_lt_upper_bound. lia.
Qed.

Lemma cont_byte_high (c k : N) : 128 <= Byte.to_N (cont_byte c k).
Proof.
  unfold cont_byte.
  assert (H : N.land (N.shiftr c (6 * k)) 0x3F < 64).
  { change 0x3F with (N.ones 6). rewrite N.land_ones.
    apply N.mod_lt. discriminate. }
  rewrite to_N_byte_of_N; lia.
Qed.

#[local] Opaque N.add N.shiftr.

(** A byte below 128 in an encoding is a code point of the string. *)
Lemma encode_cp_ascii (c : N) (l : bytes) (b : byte) :
  encode_cp c = Some l -> In b l -> Byte.to_N b < 128 -> c = Byte.to_N b.
Proof.
  unfold encode_cp. intros E Hin Hb.
  destruct (N.ltb_spec c 0x80).
  { injection E as <-. destruct Hin as [<-|[]].
    rewrite to_N_byte_of_N; lia. }
  exfalso.
  assert (Hc : forall k, b = cont_byte c k -> False).
  { intros k ->. pose proof (cont_byte_high c k). lia. }
  destruct (N.ltb_spec c 0x800).
  { injection E as <-.
    pose proof (shiftr_lt c 6 32 ltac:(cbn; lia)).
    destruct Hin as [<-|[H'|[]]]; [|now apply (Hc 0)].
    rewrite to_N_byte_of_N in Hb; lia. }
  destruct (N.ltb_spec c 0x10000).
  { destruct (is_surrogate c); [discriminate|]. injection E as <-.
    pose proof (shiftr_lt c 12 16 ltac:(cbn; lia)).
    destruct Hin as [<-|[H'|[H'|[]]]];
      [| now apply (Hc 1) | now apply (Hc 0)].
    rewrite to_N_byte_of_N in Hb; lia. }
  destruct (N.ltb_spec c 0x110000); [|discriminate].
  injection E as <-.
  pose proof (shiftr_lt c 18 5 ltac:(cbn; lia)).
  destruct Hin as [<-|[H'|[H'|[H'|[]]]]];
    [| now apply (Hc 2) | now apply (Hc 1) | now apply (Hc 0)].
  rewrite to_N_byte_of_N in Hb; lia.
Qed.

#[local] Transparent N.add N.shiftr.

Lemma encode_ascii_byte (s : pystr) (bs : bytes) (b : byte) :
  encode s = Some bs -> In b bs -> Byte.to_N b < 128 -> In (Byte.to_N b) s.
Proof.
  revert bs. induction s as [|c s IH]; intros bs E Hin Hb.
  - injection E as <-. destruct Hin.
  - cbn [encode] in E. destruct (encode_cp c) as [l|] eqn:Ec; [|discriminate].
    destruct (encode s) as [bs'|]; [|discriminate]. injection E as <-.
    apply in_app_or in Hin as [Hin|Hin].
    + left. now apply (encode_cp_ascii c l b).
    + right. now apply (IH bs').
Qed.

(** X12. Whatever path is given, the file name the uploads send, in the
    name field and in the filename parameter, holds no slash: it is the
    part of the path after the last slash, and UTF-8 encoding brings in no
    byte 0x2F. *)
Theorem sent_name_has_no_slash (file_path : pystr) (name_bytes : bytes) :
  encode (basename file_path) = Some name_bytes ->
  ~ In x2f name_bytes /\
  exists dir, (file_path = basename file_path \/
               file_path = dir ++ [slash] ++ basename file_path).
Proof.
  intros E. split.
  - intros Hin.
    pose proof (encode_ascii_byte _ _ x2f E Hin ltac:(reflexivity)) as H.
    pose proof (basename_no_slash file_path) as Hn.
    rewrite <- not_true_iff_false, existsb_exists in Hn.
    apply Hn. exists 47. split; [exact H | reflexivity].
  - clear. induction file_path as [|c p (dir & IH)].
    + exists []. now left.
    + cbn [basename]. destruct (existsb (N.eqb slash) p) eqn:Es.
      * destruct IH as [IH|IH].
        -- exfalso. rewrite IH in Es. now rewrite basename_no_slash in Es.
        -- exists (c :: dir). right. cbn [app]. f_equal. exact IH.
      * destruct (N.eqb_spec c slash) as [->|Hc].
        -- exists []. now right.
        -- exists []. now left.
Qed.

Lemma sent_name_has_no_slash_witness :
  ~ In x2f (blit "Identification.json").
Proof.
  exact (proj1 (sent_name_has_no_slash
                  (lit "/root/sdcard2/Identification.json")
                  (blit "Identification.json") eq_refl)).
Defined.

(** ** What the receiving side reads *)

Lemma hexdigest_low (d : bytes) : low (hexdigest d) = true.
Proof.
  unfold low, hexdigest. induction d as [|b d IH]; [reflexivity|].
  cbn [flat_map]. rewrite forallb_app, IH, andb_true_r.
  destruct b; reflexivity.
Qed.

Lemma to_N_of_low (s : pystr) :
  low s = true -> map Byte.to_N (map byte_of_N s) = s.
Proof.
  unfold low. induction s as [|c s IH]; [reflexivity|]. cbn [forallb map].
  intros H. apply andb_true_iff in H as [Hc Hs]. apply N.ltb_lt in Hc.
  rewrite (IH Hs), to_N_byte_of_N by lia. reflexivity.
Qed.

Lemma hash_bytes_text (file_content name_bytes : bytes) :
  map Byte.to_N (hash_bytes file_content name_bytes)
  = hexdigest (md5 (file_content ++ name_bytes)).
Proof. unfold hash_bytes. apply to_N_of_low, hexdigest_low. Qed.

(** X13. The checksum sent with the single upload verifies on the
    receiving side: when the boundary is one RFC 2046 allows, the file
    name holds no CR or LF and the boundary occurs neither in the name,
    nor in the remote path, nor in the file, the body decodes to the four
    parts name, path, file, content_hash with the header lines the script
    wrote, and the value of content_hash, read back from hexadecimal, is
    the MD5 digest of the decoded file bytes followed by the decoded value
    of name. *)
Theorem single_upload_hash_verifies (now : Z)
    (name_bytes path_bytes file_content : bytes) :
  rfc_boundary (test_boundary now) = true ->
  line_safe name_bytes ->
  ~ occurs (test_boundary now) name_bytes ->
  ~ occurs (test_boundary now) path_bytes ->
  ~ occurs (test_boundary now) file_content ->
  exists name data hash,
    frame (test_boundary now)
      (single_body now name_bytes path_bytes file_content)
    = Some (map framed (single_parts name path_bytes data hash)) /\
    data = file_content /\
    unhex (map Byte.to_N hash) = Some (md5 (data ++ name)).
Proof.
  intros Hb Hs Hn Hp Hc.
  exists name_bytes, file_content, (hash_bytes file_content name_bytes).
  split; [| split; [reflexivity|]].
  - exact (single_upload_decodes now name_bytes path_bytes file_content
             Hb Hs Hn Hp Hc).
  - rewrite hash_bytes_text. apply unhex_hexdigest.
Qed.

Lemma single_upload_hash_verifies_witness :
  exists name data hash,
    frame (test_boundary 1700000000)
      (single_body 1700000000 (blit "id.json") (blit "/") (blit "0123456789"))
    = Some (map framed (single_parts name (blit "/") data hash)) /\
    data = blit "0123456789" /\
    unhex (map Byte.to_N hash) = Some (md5 (data ++ name)).
Proof.
  apply (single_upload_hash_verifies 1700000000 (blit "id.json") (blit "/")
           (blit "0123456789"));
    [vm_compute; reflexivity
    | split; apply not_In; reflexivity
    | apply not_occurs; vm_compute; reflexivity ..].
Defined.

Lemma single_upload_decodes_witness :
  frame (test_boundary 1700000000)
    (single_body 1700000000 (blit "id.json") (blit "/") (blit "0123456789"))
  = Some (map framed
            (single_parts (blit "id.json") (blit "/") (blit "0123456789")
               (hash_bytes (blit "0123456789") (blit "id.json")))).
Proof.
  apply (single_upload_decodes 1700000000 (blit "id.json") (blit "/")
           (blit "0123456789"));
    [vm_compute; reflexivity
    | split; apply not_In; reflexivity
    | apply not_occurs; vm_compute; reflexivity ..].
Defined.

Lemma batch_upload_decodes_witness :
  frame (batch_boundary 1700000000)
    (build_multipart (batch_boundary 1700000000)
       (batch_parts [(blit "id.json", blit "0123456789");
                     (blit "id.crc", blit "crc!")] (blit "/")))
  = Some (map framed
            (batch_parts [(blit "id.json", blit "0123456789");
                          (blit "id.crc", blit "crc!")] (blit "/"))).
Proof.
  apply (batch_upload_decodes 1700000000
           [(blit "id.json", blit "0123456789"); (blit "id.crc", blit "crc!")]
           (blit "/")).
  - vm_compute. reflexivity.
  - repeat constructor;
      try (apply not_occurs; vm_compute; reflexivity);
      try (apply not_In; vm_compute; reflexivity).
  - apply not_occurs. vm_compute. reflexivity.
Defined.

(** ** The batch upload *)

Lemma upload_batch_loop_stops (w : world) (t : trace) (boundary : pystr)
    (bb : bytes) (good : list pystr) (files : list (bytes * bytes))
    (bad : pystr) (rest : list pystr) (e : exn) :
  encode boundary = Some bb ->
  Forall2 (read_as w) good files ->
  ((forall content, w_fs w bad <> Some (FsFile content))
     /\ e = open_error bad
   \/ (exists content, w_fs w bad = Some (FsFile content))
      /\ encode (basename bad) = None /\ e = UnicodeEncodeError) ->
  forall body,
    upload_batch_loop boundary (good ++ bad :: rest) body w t = (Raised e, t).
Proof.
  intros Hb HF Hbad.
  induction HF as [|file_path [nb content] paths fs [Hn Hf] HF IH]; intros body.
  - cbn [app upload_batch_loop]. cbv zeta.
    destruct Hbad as [(H & ->) | ((c & Hc) & Hn & ->)].
    + unfold bind, read_file. destruct (w_fs w bad) as [[c|]|]; try reflexivity.
      now destruct (H c).
    + run_step. unfold content_hash, bind, str_encode. now rewrite Hn.
  - cbn [fst snd] in Hn, Hf. cbn [app upload_batch_loop]. cbv zeta.
    do 8 run_step. apply IH.
Qed.

(** X14. The batch upload is all or nothing: when one of the files cannot
    be read, or its name has no UTF-8 encoding, [upload_batch] raises at
    that file and sends no request, however many files before it were
    read; only its opening line has been printed.  An unreadable path
    raises the error of [open]: [UnicodeEncodeError] for a path the file
    system encoding rejects, else [ValueError] for a path with a null
    character, else [OSError]. *)
Theorem batch_sends_nothing_on_a_bad_file (token import_id : json)
    (good : list pystr) (files : list (bytes * bytes)) (bad : pystr)
    (rest : list pystr) (remote_path : pystr) (w : world) (t : trace) :
  Forall2 (read_as w) good files ->
  let file_paths := good ++ bad :: rest in
  let t1 := t ++ [Printed (attempting_line (length file_paths))] in
  ((forall content, w_fs w bad <> Some (FsFile content)) ->
   upload_batch token import_id file_paths remote_path w t
   = (Raised (open_error bad), t1)) /\
  (forall content,
     w_fs w bad = Some (FsFile content) ->
     encode (basename bad) = None ->
     upload_batch token import_id file_paths remote_path w t
     = (Raised UnicodeEncodeError, t1)) /\
  requests_of t1 = requests_of t.
Proof.
  intros HF file_paths t1.
  assert (G : forall e,
    ((forall content, w_fs w bad <> Some (FsFile content))
     /\ e = open_error bad
     \/ (exists content, w_fs w bad = Some (FsFile content))
        /\ encode (basename bad) = None /\ e = UnicodeEncodeError) ->
    upload_batch token import_id file_paths remote_path w t = (Raised e, t1)).
  { intros e He. unfold upload_batch. cbv zeta. do 4 run_step.
    unfold bind at 1.
    rewrite (upload_batch_loop_stops w _ _ (batch_boundary (w_time w t))
               good files bad rest e);
      [reflexivity | unfold batch_boundary; encode_solve | exact HF | exact He]. }
  repeat split.
  - intros H. apply G. left. now split.
  - intros content Hc Hn. apply G. right. repeat split; [now exists content | exact Hn].
  - unfold t1. rewrite requests_of_app. cbn. now rewrite app_nil_r.
Qed.

Lemma batch_sends_nothing_on_a_bad_file_witness :
  upload_batch (JStr (lit "tok")) (JStr (lit "999"))
    [lit "/root/sdcard2/id.json"; lit "/root/sdcard2/missing.crc"] (lit "/")
    w_created []
  = (Raised OSError, [Printed (attempting_line 2)]).
Proof.
  refine (proj1
    (batch_sends_nothing_on_a_bad_file (JStr (lit "tok")) (JStr (lit "999"))
       [lit "/root/sdcard2/id.json"] [(blit "id.json", blit "0123456789")]
       (lit "/root/sdcard2/missing.crc") [] (lit "/") w_created [] _) _).
  - repeat constructor.
  - intros content. discriminate.
Defined.

(** X15. The request of the batch upload is consistent in the same way,
    and its outcome is only printed: whatever the status of the answer,
    [upload_batch] returns [None] after printing the status and the body
    of the answer as its last two lines. *)
Theorem batch_upload_request_shape (token import_id : json)
    (file_paths : list pystr) (remote_path : pystr)
    (files : list (bytes * bytes)) (path_bytes : bytes)
    (w : world) (t : trace) (r : response) :
  Forall2 (read_as w) file_paths files ->
  encode remote_path = Some path_bytes ->
  w_send w (requests_of t)
    (batch_request w t token import_id files path_bytes) = Return r ->
  exists boundary,
    let q := batch_request w t token import_id files path_bytes in
    upload_batch token import_id file_paths remote_path w t
    = (Return tt,
       t ++ [Printed (attempting_line (length file_paths)); Sent q;
             Printed (lit "Batch Status: " ++ str_of_Z (status_code r));
             Printed (lit "Batch Body: " ++ text r)]) /\
    rq_url q = BASE_URL ++ lit "/api/v1/imports/" ++ format_value w import_id
                 ++ lit "/files" /\
    assoc (lit "Authorization") (rq_headers q)
    = Some (lit "Bearer " ++ format_value w token) /\
    assoc (lit "Content-Type") (rq_headers q)
    = Some (lit "multipart/form-data; boundary=" ++ boundary) /\
    encode boundary = Some (batch_boundary (w_time w t)) /\
    rq_data q = Some (DataBytes (build_multipart (batch_boundary (w_time w t))
                                   (batch_parts files path_bytes))).
Proof.
  intros HF Hpath Hr.
  exists (lit "----BatchBoundary" ++ str_of_Z (w_time w t)). cbv zeta.
  rewrite (upload_batch_run _ _ _ _ _ _ _ _ HF Hpath). cbv zeta.
  rewrite Hr. repeat split; try reflexivity.
  - now rewrite <- app_assoc.
  - unfold batch_boundary. encode_solve.
Qed.

Lemma batch_upload_request_shape_witness :
  fst (upload_batch (JStr (lit "tok")) (JStr (lit "999"))
         [lit "/root/sdcard2/id.json"; lit "/root/sdcard2/id.crc"] (lit "/")
         w_created [])
  = Return tt.
Proof.
  destruct (batch_upload_request_shape (JStr (lit "tok")) (JStr (lit "999"))
              [lit "/root/sdcard2/id.json"; lit "/root/sdcard2/id.crc"]
              (lit "/")
              [(blit "id.json", blit "0123456789"); (blit "id.crc", blit "crc!")]
              (blit "/") w_created [] created
              ltac:(repeat constructor) eq_refl eq_refl)
    as (b & E & _).
  exact (f_equal fst E).
Defined.

(** ** The driver *)

Section Emits.

Variable w : world.
Variable P : event -> Prop.

Lemma emits_still {A} (c : M A) :
  (forall t, snd (c w t) = t) -> emits_in w P c.
Proof. intros H t. exists []. rewrite H, app_nil_r. split; constructor. Qed.

Lemma emits_ret {A} (a : A) : emits_in w P (ret a).
Proof. now apply emits_still. Qed.

Lemma emits_raise {A} (e : exn) : emits_in w P (@raise A e).
Proof. now apply emits_still. Qed.

Lemma emits_fmt (v : json) : emits_in w P (fmt v).
Proof. now apply emits_still. Qed.

Lemma emits_time_now : emits_in w P time_now.
Proof. now apply emits_still. Qed.

Lemma emits_path_exists (p : pystr) : emits_in w P (path_exists p).
Proof. now apply emits_still. Qed.

Lemma emits_read_file (p : pystr) : emits_in w P (read_file p).
Proof.
  apply emits_still. intros t. unfold read_file.
  now destruct (w_fs w p) as [[]|].
Qed.

Lemma emits_str_encode (s : pystr) : emits_in w P (str_encode s).
Proof.
  apply emits_still. intros t. unfold str_encode. now destruct (encode s).
Qed.

Lemma emits_response_json (r : response) : emits_in w P (response_json r).
Proof.
  apply emits_still. intros t. unfold response_json.
  now destruct (json_body r).
Qed.

Lemma emits_dict_get (v : json) (k : pystr) (d : json) :
  emits_in w P (dict_get v k d).
Proof. apply emits_still. intros t. now destruct v. Qed.

Lemma emits_print (line : pystr) : P (Printed line) -> emits_in w P (print line).
Proof. intros H t. exists [Printed line]. split; [reflexivity | now constructor]. Qed.

Lemma emits_send (q : request) : P (Sent q) -> emits_in w P (send q).
Proof. intros H t. exists [Sent q]. split; [reflexivity | now constructor]. Qed.

Lemma emits_bind {A B} (c : M A) (k : A -> M B) :
  emits_in w P c -> (forall a, emits_in w P (k a)) -> emits_in w P (bind c k).
Proof.
  intros Hc Hk t. unfold bind.
  destruct (Hc t) as (n1 & E1 & F1).
  destruct (c w t) as [[a|e] t'] eqn:E; cbn [snd] in *; subst t'.
  - destruct (Hk a (t ++ n1)) as (n2 & E2 & F2).
    exists (n1 ++ n2). rewrite E2, app_assoc. split; [reflexivity|].
    now apply Forall_app.
  - now exists n1.
Qed.

(** A step that is known to return [a] without touching the trace. *)
Lemma emits_bind_known {A B} (c : M A) (k : A -> M B) (a : A) :
  (forall t, c w t = (Return a, t)) -> emits_in w P (k a) ->
  emits_in w P (bind c k).
Proof. intros Hc Hk t. unfold bind. rewrite Hc. apply Hk. Qed.

Lemma emits_if {A} (b : bool) (c1 c2 : M A) :
  emits_in w P c1 -> emits_in w P c2 -> emits_in w P (if b then c1 else c2).
Proof. now destruct b. Qed.

End Emits.

Ltac emits_text :=
  repeat first
    [ apply emits_ret | apply emits_raise | apply emits_fmt
    | apply emits_time_now | apply emits_path_exists | apply emits_read_file
    | apply emits_str_encode | apply emits_response_json
    | apply emits_dict_get
    | apply emits_print; exact I
    | apply emits_send; exact I
    | apply emits_if
    | apply emits_bind; [| intros ? ]
    | progress cbv zeta ].

Lemma get_token_text (w : world) : emits_in w text_only get_token.
Proof. unfold get_token, requests_post. emits_text. Qed.

Lemma get_team_id_text (w : world) (token : json) :
  emits_in w text_only (get_team_id token).
Proof. unfold get_team_id, requests_get. emits_text. Qed.

Lemma create_import_text (w : world) (token team_id : json) :
  emits_in w text_only (create_import token team_id).
Proof. unfold create_import, requests_post. emits_text. Qed.

(** X16. The uploads hang on the files alone: in a world where
    [/root/sdcard2/Identification.json] does not exist, [main] never sends
    a multipart body, neither the single upload nor the batch, whatever
    the server answers; what it sends are the token, team and import
    requests. *)
Theorem main_sends_no_body_without_file (w : world) (t : trace) :
  w_fs w test_file = None ->
  exists new, snd (main w t) = t ++ new /\ Forall text_only new.
Proof.
  intros Hfs. revert t. change (emits_in w text_only main). unfold main.
  apply emits_bind; [apply get_token_text | intros token].
  apply emits_if; [apply emits_ret|].
  apply emits_bind; [apply get_team_id_text | intros team_id].
  apply emits_bind; [apply emits_fmt | intros team].
  apply emits_bind; [apply emits_print; exact I | intros _].
  apply emits_bind; [apply create_import_text | intros import_id].
  apply emits_bind; [apply emits_fmt | intros import].
  apply emits_bind; [apply emits_print; exact I | intros _].
  cbv zeta. fold test_file.
  apply (emits_bind_known w text_only (path_exists test_file) _ false).
  { intros t. unfold path_exists. now rewrite Hfs. }
  apply emits_bind; [apply emits_ret | intros _].
  apply (emits_bind_known w text_only (all_exist _) _ false).
  { intros t. cbn [all_exist]. unfold bind, path_exists. fold test_file.
    now rewrite Hfs. }
  apply emits_ret.
Qed.

Lemma main_sends_no_body_without_file_witness :
  exists new, snd (main w_noscope []) = [] ++ new /\ Forall text_only new.
Proof.
  apply (main_sends_no_body_without_file w_noscope []). reflexivity.
Defined.

Lemma upload_batch_loop_appends (w : world) (boundary : pystr)
    (file_paths : list pystr) :
  forall body,
    emits_in w (fun _ => True) (upload_batch_loop boundary file_paths body).
Proof.
  induction file_paths as [|p ps IH]; intros body; cbn [upload_batch_loop].
  - apply emits_ret.
  - unfold content_hash.
    repeat first
      [ apply IH | apply emits_ret | apply emits_read_file
      | apply emits_str_encode
      | apply emits_bind; [| intros ? ]
      | progress cbv zeta ].
Qed.

Lemma upload_batch_appends (w : world) (token import_id : json)
    (file_paths : list pystr) (remote_path : pystr) :
  emits_in w (fun _ => True)
    (upload_batch token import_id file_paths remote_path).
Proof.
  unfold upload_batch, requests_post.
  repeat first
    [ apply upload_batch_loop_appends | apply emits_ret | apply emits_fmt
    | apply emits_time_now | apply emits_str_encode
    | apply emits_print; exact I
    | apply emits_send; exact I
    | apply emits_bind; [| intros ? ]
    | progress cbv zeta ].
Qed.

Lemma all_exist_still (w : world) (files : list pystr) (t : trace) :
  snd (all_exist files w t) = t.
Proof.
  induction files as [|f fs IH]; [reflexivity|].
  cbn [all_exist]. unfold bind, path_exists.
  destruct (w_fs w f); [exact IH | reflexivity].
Qed.

(** X17. The driver does not check what it was given: when a usable token
    was obtained, [/me] is answered with a status other than 200 and the
    import creation with a status other than 201, [main] goes on with a
    team and an import that are both [None]; as soon as the test file
    exists it posts the file to [/api/v1/imports/None/files], after having
    asked for [/api/v1/teams/None/imports]. *)
Theorem main_uploads_after_failed_setup (w : world) (t t1 : trace)
    (token : json) (r_me r_imp : response) (content : bytes) :
  get_token w t = (Return token, t1) ->
  truthy token = true ->
  w_send w (requests_of t1) (me_request (format_value w token))
  = Return r_me ->
  status_code r_me <> 200%Z ->
  w_send w (requests_of t1 ++ [me_request (format_value w token)])
    (import_request w token JNull) = Return r_imp ->
  status_code r_imp <> 201%Z ->
  w_fs w test_file = Some (FsFile content) ->
  exists up now rest,
    requests_of (snd (main w t))
    = requests_of t1
      ++ [me_request (format_value w token); import_request w token JNull; up]
      ++ rest /\
    rq_url (import_request w token JNull)
    = lit "https://sleephq.com/api/v1/teams/None/imports" /\
    rq_url up = lit "https://sleephq.com/api/v1/imports/None/files" /\
    rq_data up
    = Some (DataBytes (single_body now (blit "Identification.json") (blit "/")
                         content)).
Proof.
  intros Etok Htok Hme Sme Himp Simp Hfs.
  apply Z.eqb_neq in Sme, Simp.
  unfold main.
  rewrite (bind_run _ _ _ _ _ _ Etok). rewrite Htok. cbn [negb].
  erewrite bind_run;
    [| rewrite get_team_id_run; cbv zeta; rewrite Hme, Sme; reflexivity].
  do 2 (erewrite bind_run; [| reflexivity]; cbv beta zeta).
  erewrite bind_run;
    [| rewrite create_import_run; cbv zeta;
       rewrite !requests_of_app; cbn [requests_of flat_map app];
       rewrite app_nil_r, Himp, Simp; reflexivity].
  do 2 (erewrite bind_run; [| reflexivity]; cbv beta zeta). fold test_file.
  erewrite bind_run; [| unfold path_exists; rewrite Hfs; reflexivity].
  cbv beta iota.
  set (t4 := (_ ++ [Printed (lit "Import ID: " ++ format_value w JNull)])).
  pose proof (upload_file_hash_last_run token JNull test_file (lit "/")
                content (blit "Identification.json") (blit "/") w t4
                Hfs eq_refl eq_refl) as Hup.
  cbv zeta in Hup.
  set (up := single_request w t4 token JNull (blit "Identification.json")
               (blit "/") content) in *.
  assert (R4 : requests_of t4
               = requests_of t1
                 ++ [me_request (format_value w token);
                     import_request w token JNull]).
  { unfold t4. repeat rewrite requests_of_app. cbn [requests_of flat_map app].
    repeat rewrite app_nil_r. repeat rewrite <- app_assoc. reflexivity. }
  exists up, (w_time w t4).
  assert (E : (upload_file_hash_last token JNull test_file (lit "/") ;; ret tt)
                w t4
              = match w_send w (requests_of t4) up with
                | Return r =>
                    (Return tt,
                     (t4 ++ [Printed (uploading_line (basename test_file));
                             Sent up])
                     ++ [Printed (lit "Status: " ++ str_of_Z (status_code r))])
                | Raised e =>
                    (Raised e,
                     t4 ++ [Printed (uploading_line (basename test_file));
                            Sent up])
                end).
  { unfold bind. rewrite Hup. now destruct (w_send w (requests_of t4) up). }
  destruct (w_send w (requests_of t4) up) as [r|e].
  - rewrite (bind_run _ _ _ _ _ _ E).
    match goal with
    | |- context [bind (all_exist ?fs) ?k w ?t5] =>
        destruct (emits_bind w (fun _ => True) (all_exist fs) k
                    (emits_still w _ (all_exist fs) (all_exist_still w fs))
                    (fun b => emits_if w _ b _ _
                                (upload_batch_appends w _ _ _ _)
                                (emits_ret w _ tt))
                    t5) as (new & E' & _)
    end.
    exists (requests_of new). rewrite E'.
    repeat rewrite requests_of_app. rewrite R4.
    cbn [requests_of flat_map app]. repeat rewrite <- app_assoc.
    repeat split.
  - exists []. unfold bind at 1. rewrite E. cbn [snd].
    repeat rewrite requests_of_app. rewrite R4.
    cbn [requests_of flat_map app]. repeat rewrite <- app_assoc.
    repeat split.
Qed.

Lemma main_uploads_after_failed_setup_witness :
  exists up now rest,
    requests_of (snd (main w_setup_fails []))
    = [token_request (Some (lit "read+write"))]
      ++ [me_request (lit "tok");
          import_request w_setup_fails (JStr (lit "tok")) JNull; up]
      ++ rest /\
    rq_url (import_request w_setup_fails (JStr (lit "tok")) JNull)
    = lit "https://sleephq.com/api/v1/teams/None/imports" /\
    rq_url up = lit "https://sleephq.com/api/v1/imports/None/files" /\
    rq_data up
    = Some (DataBytes (single_body now (blit "Identification.json") (blit "/")
                         (blit "0123456789"))).
Proof.
  apply (main_uploads_after_failed_setup w_setup_fails []
           [Printed requesting_line;
            Sent (token_request (Some (lit "read+write")))]
           (JStr (lit "tok"))
           (Response 500 (lit "down") None) (Response 500 (lit "down") None)
           (blit "0123456789"));
    try reflexivity; discriminate.
Defined.

Lemma emits_weaken (w : world) (P Q : event -> Prop) {A} (c : M A) :
  (forall e, P e -> Q e) -> emits_in w P c -> emits_in w Q c.
Proof.
  intros H Hc t. destruct (Hc t) as (new & E & F).
  exists new. split; [exact E|]. revert F. apply Forall_impl. exact H.
Qed.

Lemma text_only_not_batch (e : event) : text_only e -> not_batch e.
Proof.
  destruct e as [l|q]; [easy|]. cbn. now destruct (rq_data q) as [[]|].
Qed.

Lemma single_request_not_batch (w : world) (t : trace) (token import_id : json)
    (name_bytes path_bytes file_content : bytes) :
  not_batch (Sent (single_request w t token import_id name_bytes path_bytes
                     file_content)).
Proof.
  cbn [not_batch single_request rq_data].
  unfold single_body, build_multipart, single_parts. cbn [flat_map].
  unfold encode_part at 1, test_boundary. rewrite <- !app_assoc. reflexivity.
Qed.

Lemma upload_test_file_not_batch (w : world) (token import_id : json) :
  emits_in w not_batch
    (upload_file_hash_last token import_id test_file (lit "/")).
Proof.
  intros t. destruct (w_fs w test_file) as [[content|]|] eqn:Hfs.
  - rewrite (upload_file_hash_last_run token import_id test_file (lit "/")
               content (blit "Identification.json") (blit "/") w t
               Hfs eq_refl eq_refl).
    cbv zeta. destruct (w_send w (requests_of t) _) as [r|e]; cbn [snd].
    + eexists. rewrite <- app_assoc. split; [reflexivity|].
      repeat (constructor; try apply single_request_not_batch).
    + eexists. split; [reflexivity|].
      repeat (constructor; try apply single_request_not_batch).
  - exists []. unfold upload_file_hash_last, bind, fmt, read_file.
    rewrite Hfs. cbn [snd]. rewrite app_nil_r. split; constructor.
  - exists []. unfold upload_file_hash_last, bind, fmt, read_file.
    rewrite Hfs. cbn [snd]. rewrite app_nil_r. split; constructor.
Qed.

(** X18. The batch needs both files: in a world where
    [/root/sdcard2/Identification.crc] does not exist, [main] sends no
    batch upload, whatever else happens; a multipart body it sends can
    only be the single upload. *)
Theorem main_sends_no_batch_without_crc (w : world) (t : trace) :
  w_fs w crc_file = None ->
  exists new, snd (main w t) = t ++ new /\ Forall not_batch new.
Proof.
  intros Hfs. revert t. change (emits_in w not_batch main). unfold main.
  apply emits_bind;
    [apply (emits_weaken w _ _ _ text_only_not_batch), get_token_text
    | intros token].
  apply emits_if; [apply emits_ret|].
  apply emits_bind;
    [apply (emits_weaken w _ _ _ text_only_not_batch), get_team_id_text
    | intros team_id].
  apply emits_bind; [apply emits_fmt | intros team].
  apply emits_bind; [apply emits_print; exact I | intros _].
  apply emits_bind;
    [apply (emits_weaken w _ _ _ text_only_not_batch), create_import_text
    | intros import_id].
  apply emits_bind; [apply emits_fmt | intros import].
  apply emits_bind; [apply emits_print; exact I | intros _].
  cbv zeta. fold test_file crc_file.
  apply emits_bind; [apply emits_path_exists | intros found].
  apply emits_bind.
  { apply emits_if; [|apply emits_ret].
    apply emits_bind; [apply upload_test_file_not_batch | intros _].
    apply emits_ret. }
  intros _.
  apply (emits_bind_known w not_batch (all_exist _) _ false); [|apply emits_ret].
  intros t. cbn [all_exist]. unfold bind, path_exists.
  destruct (w_fs w test_file); [|reflexivity].
  cbv beta. now rewrite Hfs.
Qed.

Lemma main_sends_no_batch_without_crc_witness :
  exists new, snd (main w_setup_fails []) = [] ++ new /\ Forall not_batch new.
Proof.
  apply (main_sends_no_batch_without_crc w_setup_fails []). reflexivity.
Defined.

(** ** A delimiter inside a payload *)












(** The body of that witness, decoded: the bytes of the file after the
    delimiter line are read as a field of their own. *)
Example collision_injects_a_field :
  let file_content :=
    blit "abc" ++ CRLF ++ blit "--" ++ test_boundary 1700000000 ++ CRLF
      ++ blit "Content-Disposition: form-data; name=" ++ [DQ] ++ blit "x"
      ++ [DQ] ++ CRLF ++ CRLF ++ blit "xyz" in
  payloads (test_boundary 1700000000)
    (single_body 1700000000 (blit "id.json") (blit "/") file_content)
  = Some [blit "id.json"; blit "/"; blit "abc"; blit "xyz";
          hash_bytes file_content (blit "id.json")].
Proof. vm_compute. reflexivity. Qed.

(** X24. Nothing in the driver catches an exception: when a usable token
    was obtained and [/me] answers 200 with a [data] member that is no
    object, [main] ends with the [AttributeError] of [get_team_id]; no
    import is created and nothing is uploaded, the [/me] request is the
    last one sent. *)
Theorem main_raises_on_malformed_me (w : world) (t t1 : trace) (token : json)
    (r : response) (m : list (pystr * json)) (d : json) :
  get_token w t = (Return token, t1) ->
  truthy token = true ->
  w_send w (requests_of t1) (me_request (format_value w token)) = Return r ->
  status_code r = 200%Z ->
  json_body r = Some (JObj m) ->
  assoc (lit "data") m = Some d ->
  is_object d = false ->
  main w t
  = (Raised AttributeError, t1 ++ [Sent (me_request (format_value w token))]).
Proof.
  intros Etok Htok Hr Hs Hj Hm Hd. apply Z.eqb_eq in Hs.
  unfold main. rewrite (bind_run _ _ _ _ _ _ Etok). rewrite Htok. cbn [negb].
  unfold bind at 1. rewrite get_team_id_run. cbv zeta.
  rewrite Hr, Hs. unfold team_id_of. rewrite Hj, Hm.
  destruct d; try reflexivity. discriminate.
Qed.

Lemma main_raises_on_malformed_me_witness :
  main w_token_then_null []
  = (Raised AttributeError,
     [Printed requesting_line; Sent (token_request (Some (lit "read+write")));
      Sent (me_request (lit "tok"))]).
Proof.
  apply (main_raises_on_malformed_me w_token_then_null []
           [Printed requesting_line;
            Sent (token_request (Some (lit "read+write")))]
           (JStr (lit "tok"))
           (Response 200 (lit "{data: null}") (Some (JObj [(lit "data", JNull)])))
           [(lit "data", JNull)] JNull);
    reflexivity.
Defined.

(** ** The build fragment *)

Lemma str_prefix_app (p r : pystr) : str_prefix p (p ++ r) = true.
Proof.
  induction p as [|a p IH]; [reflexivity|]. cbn. now rewrite N.eqb_refl.
Qed.

Lemma str_prefix_true (p s : pystr) :
  str_prefix p s = true -> exists r, s = p ++ r.
Proof.
  revert s. induction p as [|a p IH]; intros s H.
  - now exists s.
  - destruct s as [|b s]; [discriminate|]. cbn in H.
    apply andb_true_iff in H as [E H]. apply N.eqb_eq in E. subst b.
    destruct (IH s H) as (r & ->). now exists r.
Qed.

Lemma replace_from_skip (old new x r : pystr) :
  replace_from old new (length x) (x ++ r) = replace_from old new 0 r.
Proof.
  induction x as [|c x IH]; [|exact IH].
  cbn [length app]. destruct r; reflexivity.
Qed.

Lemma replace_from_match (c : N) (tl new r : pystr) :
  replace_from (c :: tl) new 0 ((c :: tl) ++ r)
  = new ++ replace_from (c :: tl) new 0 r.
Proof.
  cbn [app replace_from].
  change (str_prefix (c :: tl) (c :: tl ++ r))
    with (str_prefix (c :: tl) ((c :: tl) ++ r)).
  rewrite str_prefix_app.
  replace (length (c :: tl) - 1)%nat with (length tl) by (cbn; lia).
  now rewrite replace_from_skip.
Qed.

Lemma occurs_in_later (sub x1 x2 : pystr) :
  occurs_in sub x2 -> occurs_in sub (x1 ++ x2).
Proof.
  intros (a & b & ->). exists (x1 ++ a), b. now rewrite <- app_assoc.
Qed.

(** No match starts inside [x] when [old] starts with a code point that
    does not come back in it and does not occur in [x]. *)
Lemma no_early_prefix (c : N) (tl x1 x2 r : pystr) :
  ~ In c tl -> ~ occurs_in (c :: tl) (x1 ++ x2) -> x2 <> [] ->
  str_prefix (c :: tl) (x2 ++ (c :: tl) ++ r) = false.
Proof.
  intros Hc Hocc Hne.
  destruct (str_prefix (c :: tl) (x2 ++ (c :: tl) ++ r)) eqn:E;
    [|reflexivity].
  exfalso. apply str_prefix_true in E as (r' & E).
  destruct x2 as [|y x2]; [contradiction|].
  cbn [app] in E. injection E as -> E.
  apply app_eq_app in E as (z & [(E1 & E2) | (E1 & E2)]).
  - apply Hocc, occurs_in_later. exists [], z. cbn. now rewrite E1.
  - destruct z as [|z0 z].
    + apply Hocc, occurs_in_later. exists [], []. cbn.
      rewrite app_nil_r in *. now subst.
    + cbn in E2. injection E2 as <- _. apply Hc. rewrite E1.
      apply in_or_app. right. now left.
Qed.

Lemma replace_from_first (c : N) (tl new a b : pystr) :
  ~ In c tl -> ~ occurs_in (c :: tl) a ->
  replace_from (c :: tl) new 0 (a ++ (c :: tl) ++ b)
  = a ++ new ++ replace_from (c :: tl) new 0 b.
Proof.
  intros Hc. induction a as [|x a IH]; intros Ho.
  - apply replace_from_match.
  - pose proof (no_early_prefix c tl [] (x :: a) b Hc Ho ltac:(discriminate))
      as Hp.
    cbn [app replace_from] in *. rewrite Hp. f_equal. apply IH.
    intros H. apply Ho. now apply (occurs_in_later _ [x]).
Qed.

Lemma replace_from_absent (c : N) (tl new s : pystr) :
  ~ occurs_in (c :: tl) s -> replace_from (c :: tl) new 0 s = s.
Proof.
  induction s as [|x s IH]; intros Ho; [reflexivity|].
  cbn [replace_from].
  destruct (str_prefix (c :: tl) (x :: s)) eqn:E.
  - exfalso. apply str_prefix_true in E as (r & E).
    apply Ho. exists [], r. exact E.
  - f_equal. apply IH. intros H. apply Ho.
    now apply (occurs_in_later _ [x]).
Qed.

Lemma occurs_in_contains (sub s : pystr) :
  occurs_in sub s -> str_contains sub s = true.
Proof.
  intros (a & b & ->). induction a as [|x a IH].
  - cbn [app]. destruct (sub ++ b) eqn:E; cbn [str_contains];
      rewrite <- E, str_prefix_app; reflexivity.
  - cbn [app str_contains]. rewrite IH. apply orb_true_r.
Qed.

Lemma not_occurs_in (sub s : pystr) :
  str_contains sub s = false -> ~ occurs_in sub s.
Proof. intros E H. apply occurs_in_contains in H. congruence. Qed.

(** X20. The replacement is not anchored: in a directory [a/src b], where
    [/src] does not occur in [a], the first [/src] becomes
    [/components/libsmb2] and the rest [b] is treated the same way, so
    every [/src] of the path is replaced, also one in the middle or one
    that only starts a longer name; a rest without [/src] stays as it
    is. *)
Theorem lib_source_dir_replaces_each (a b : pystr) :
  ~ occurs_in (lit "/src") a ->
  lib_source_dir (Some (a ++ lit "/src" ++ b))
  = a ++ lit "/components/libsmb2" ++ lib_source_dir (Some b) /\
  (~ occurs_in (lit "/src") b ->
   lib_source_dir (Some (a ++ lit "/src" ++ b))
   = a ++ lit "/components/libsmb2" ++ b).
Proof.
  intros Ho. unfold lib_source_dir, str_replace.
  change (lit "/src") with (47 :: lit "src") in *.
  assert (Hc : ~ In 47 (lit "src")) by (cbv; intuition discriminate).
  split.
  - now apply replace_from_first.
  - intros Hb. rewrite replace_from_first by assumption.
    now rewrite replace_from_absent.
Qed.

Lemma lib_source_dir_replaces_each_witness :
  lib_source_dir (Some (lit "/home/u" ++ lit "/src" ++ lit "s/app/src"))
  = lit "/home/u" ++ lit "/components/libsmb2"
      ++ lit "s/app/components/libsmb2".
Proof.
  rewrite (proj1 (lib_source_dir_replaces_each (lit "/home/u")
                    (lit "s/app/src")
                    (not_occurs_in (lit "/src") (lit "/home/u") eq_refl))).
  reflexivity.
Defined.

Lemma not_ends_with_slash (a : pystr) :
  ends_with_slash (a ++ lit "/components/libsmb2") = false.
Proof.
  unfold ends_with_slash. rewrite rev_app_distr. reflexivity.
Qed.

Lemma path_join_under (a rel : pystr) :
  str_prefix [slash] rel = false ->
  path_join (a ++ lit "/components/libsmb2") rel
  = (a ++ lit "/components/libsmb2") ++ [slash] ++ rel.
Proof.
  intros Hr. unfold path_join. rewrite Hr.
  pose proof (not_ends_with_slash a) as E.
  destruct (a ++ lit "/components/libsmb2") eqn:Ea.
  - destruct a; discriminate Ea.
  - now rewrite E.
Qed.

(** X21. For a project directory [a/src] with no other [/src] in it, the
    library directory is [a/components/libsmb2], and the include paths
    and the forced include are the five paths under it. *)
Theorem conventional_layout_paths (a : pystr) :
  ~ occurs_in (lit "/src") a ->
  let d := a ++ lit "/components/libsmb2" in
  lib_source_dir (Some (a ++ lit "/src")) = d /\
  CPPPATH (Some (a ++ lit "/src"))
  = [d ++ lit "/include"; d ++ lit "/include/smb2"; d ++ lit "/include/esp";
     d ++ lit "/lib"] /\
  CCFLAGS (Some (a ++ lit "/src"))
  = [lit "-Wno-implicit-function-declaration";
     lit "-Wno-builtin-declaration-mismatch"; lit "-include";
     d ++ lit "/lib/esp_compat_wrapper.h"].
Proof.
  intros Ho d.
  assert (E : lib_source_dir (Some (a ++ lit "/src")) = d).
  { unfold lib_source_dir, str_replace.
    change (lit "/src") with (47 :: lit "src") in *.
    replace (a ++ 47 :: lit "src") with (a ++ (47 :: lit "src") ++ [])
      by now rewrite app_nil_r.
    rewrite replace_from_first;
      [reflexivity | cbv; intuition discriminate | exact Ho]. }
  split; [exact E|]. unfold CPPPATH, CCFLAGS. rewrite E. unfold d.
  rewrite !path_join_under by reflexivity.
  split; reflexivity.
Qed.

Lemma conventional_layout_paths_witness :
  CPPPATH (Some (lit "/home/u/proj" ++ lit "/src"))
  = [(lit "/home/u/proj" ++ lit "/components/libsmb2") ++ lit "/include";
     (lit "/home/u/proj" ++ lit "/components/libsmb2") ++ lit "/include/smb2";
     (lit "/home/u/proj" ++ lit "/components/libsmb2") ++ lit "/include/esp";
     (lit "/home/u/proj" ++ lit "/components/libsmb2") ++ lit "/lib"].
Proof.
  exact (proj1 (proj2
    (conventional_layout_paths (lit "/home/u/proj")
       (not_occurs_in (lit "/src") (lit "/home/u/proj") eq_refl)))).
Defined.

(** X22. A directory without [/src] is taken as it is, silently: the
    library directory is then the project directory itself, and when the
    variable is not set or empty the paths handed over are the relative
    paths [include], [include/smb2], [include/esp], [lib] and
    [lib/esp_compat_wrapper.h]. *)
Theorem lib_source_dir_without_src (v : option pystr) :
  let d := match v with Some s => s | None => [] end in
  ~ occurs_in (lit "/src") d ->
  lib_source_dir v = d /\
  (d = [] ->
   CPPPATH v = [lit "include"; lit "include/smb2"; lit "include/esp";
                lit "lib"] /\
   nth 3 (CCFLAGS v) [] = lit "lib/esp_compat_wrapper.h").
Proof.
  intros d Ho.
  assert (E : lib_source_dir v = d).
  { unfold lib_source_dir, str_replace. fold d.
    change (lit "/src") with (47 :: lit "src") in *.
    now apply replace_from_absent. }
  split; [exact E|]. intros Hd. unfold CPPPATH, CCFLAGS. rewrite E, Hd.
  split; reflexivity.
Qed.

Lemma lib_source_dir_without_src_witness :
  lib_source_dir (Some (lit "/home/u/project")) = lit "/home/u/project".
Proof.
  exact (proj1
    (lib_source_dir_without_src (Some (lit "/home/u/project"))
       (not_occurs_in (lit "/src") (lit "/home/u/project") eq_refl))).
Defined.
